(** * NoteWise YouTube backend: the request pipeline of [main_youtube.py]

    A shallow embedding of the endpoint [process_youtube] and of its helper
    functions, with the collaborators the program calls (the download tool,
    the speech-recognition model, the chat-completion client, the local file
    system) made explicit, followed by the properties of the pipeline. *)

From Stdlib Require Import ZArith NArith Ascii String List Lia.
From stdpp Require Import base decidable countable gmap strings list pretty.

Local Open Scope Z_scope.

(** ** Python text

    A Python [str] is a sequence of Unicode code points.  Code points are
    kept as numbers, so that [str.strip] and [str.split] can follow
    Python's own notion of whitespace, which goes beyond ASCII. *)

Abbreviation str := (list N).

(** A literal of the source.  All literals of the program are ASCII, except
    one dash in the prompt of [summarize_text], which is written out by its
    code point below. *)
Definition lit (s : string) : str :=
  List.map N_of_ascii (list_ascii_of_string s).
Arguments lit : simpl never.

Definition nl : str := [10%N].

(** [str.isspace] on one code point: CPython's [_PyUnicode_IsWhitespace]. *)
Definition isspace (c : N) : bool :=
  ((9 <=? c) && (c <=? 13) || (28 <=? c) && (c <=? 32)
   || (c =? 133) || (c =? 160) || (c =? 5760)
   || (8192 <=? c) && (c <=? 8202)
   || (c =? 8232) || (c =? 8233) || (c =? 8239) || (c =? 8287)
   || (c =? 12288))%N.

Fixpoint lstrip (s : str) : str :=
  match s with
  | [] => []
  | c :: s' => if isspace c then lstrip s' else s
  end.

Definition rstrip (s : str) : str := rev (lstrip (rev s)).

(** [s.strip()] *)
Definition strip (s : str) : str := rstrip (lstrip s).

(** [s.split()]: the maximal runs of non-whitespace, in order.  [w] is the
    word being read. *)
Fixpoint split_from (w : str) (s : str) : list str :=
  match s with
  | [] => match w with [] => [] | _ => [w] end
  | c :: s' =>
      if isspace c
      then match w with [] => split_from [] s' | _ => w :: split_from [] s' end
      else split_from (w ++ [c]) s'
  end.

Definition split (s : str) : list str := split_from [] s.

(** [os.path.join(a, b)] of [posixpath]. *)
Definition startswith (p s : str) : bool := bool_decide (take (length p) s = p).
Definition endswith (p s : str) : bool := startswith (rev p) (rev s).

Definition os_path_join (a b : str) : str :=
  if startswith (lit "/") b then b
  else if bool_decide (a = []) || endswith (lit "/") a then a ++ b
  else a ++ lit "/" ++ b.

(** A text block of the source, one element per line: every line of a
    triple-quoted literal ends in a newline. *)
Definition text_block (ls : list str) : str := concat (List.map (fun l => l ++ nl) ls).

(** ** Values, exceptions and the messages exchanged with the chat client *)

(** The values the text functions pass around: a [str], or [None] (the
    client types the content of a message as optional). *)
Inductive PyVal :=
| PStr (s : str)
| PNone.

(** A replacement field of an f-string, [{v}]. *)
Definition format_value (v : PyVal) : str :=
  match v with
  | PStr s => s
  | PNone => lit "None"
  end.

Inductive Exn :=
| CalledProcessError (returncode : Z) (cmd : list str)
| FileNotFoundError (filename : str)
| RuntimeError (msg : str)
| IndexError
| HTTPException (status_code : Z) (detail : str)
| OtherException (cls : string) (msg : str).

Record Message := { role : str; content : PyVal }.

Record ChatRequest := {
  model : str;
  messages : list Message;
  max_tokens : Z
}.

Record Choice := { message : Message }.

Record ChatCompletion := { choices : list Choice }.

(** ** The collaborators and the world they act on

    [E] is the state of everything outside the process that the
    collaborators may read or change (network, remote services, sources of
    randomness).  The local file system is kept apart, as the set of paths
    that hold a file. *)

Record World (E : Type) := {
  fs : gset str;
  ext : E
}.
Arguments fs {E} _.
Arguments ext {E} _.
Arguments Build_World {E} _ _.

(** The handle returned by [whisper.load_model]: decoding the audio at a
    path gives the [text] entry of the result, or raises. *)
Record WhisperModel (E : Type) := {
  decode : str -> E -> (Exn + str) * E
}.
Arguments decode {E} _ _ _.

(** The [OpenAI] client: [client.chat.completions.create]. *)
Record OpenAI (E : Type) := {
  chat_completions_create : ChatRequest -> E -> (Exn + ChatCompletion) * E
}.
Arguments chat_completions_create {E} _ _ _.

(** The module-level state of the program and the library calls it makes.
    [whisper_model] is [None] when loading failed at startup. *)
Record Env (E : Type) := {
  whisper_model : option (WhisperModel E);
  client : OpenAI E;
  tempfile_gettempdir : E -> str * E;
  uuid_uuid4 : E -> str * E;
  (** running a command: the process cannot be started (an exception), or
      it exits with a return code; it may write files *)
  spawn : list str -> gset str -> E -> (Exn + Z) * gset str * E
}.
Arguments whisper_model {E} _.
Arguments client {E} _.
Arguments tempfile_gettempdir {E} _ _.
Arguments uuid_uuid4 {E} _ _.
Arguments spawn {E} _ _ _ _.

(** What is observed of a run: each call made outside the program, with the
    reply it got, in order. *)
Inductive Call :=
| CallGettempdir
| CallUuid4
| CallSubprocessRun (cmd : list str)
| CallTranscribe (path : str)
| CallOsRemove (path : str)
| CallChatCreate (req : ChatRequest).

Inductive Reply :=
| ReplyStr (s : str)
| ReplyExit (r : Exn + Z)
| ReplyText (r : Exn + str)
| ReplyUnit (r : Exn + unit)
| ReplyChat (r : Exn + ChatCompletion).

Abbreviation Event := (Call * Reply)%type.

(** ** A monad for the program: state, exceptions and the trace of calls *)

Definition M (E A : Type) : Type := World E -> (Exn + A) * World E * list Event.

Definition ret {E A} (a : A) : M E A := fun w => (inr a, w, []).

Definition raise {E A} (e : Exn) : M E A := fun w => (inl e, w, []).

Definition bind {E A B} (c : M E A) (k : A -> M E B) : M E B :=
  fun w =>
    match c w with
    | (inl e, w1, t1) => (inl e, w1, t1)
    | (inr a, w1, t1) =>
        match k a w1 with
        | (r, w2, t2) => (r, w2, t1 ++ t2)
        end
    end.

(** [try: c except Exception as e: h e] *)
Definition try_except {E A} (c : M E A) (h : Exn -> M E A) : M E A :=
  fun w =>
    match c w with
    | (inl e, w1, t1) =>
        match h e w1 with
        | (r, w2, t2) => (r, w2, t1 ++ t2)
        end
    | (inr a, w1, t1) => (inr a, w1, t1)
    end.

Notation "x <- c ;; k" := (bind c (fun x => k))
  (at level 100, c at next level, right associativity).

Definition result_of {E A} (o : (Exn + A) * World E * list Event) : Exn + A := o.1.1.
Definition world_of {E A} (o : (Exn + A) * World E * list Event) : World E := o.1.2.
Definition trace_of {E A} (o : (Exn + A) * World E * list Event) : list Event := o.2.

Definition calls (t : list Event) : list Call := List.map fst t.
Definition replies (t : list Event) : list Reply := List.map snd t.

Definition is_chat_call (c : Call) : bool :=
  match c with CallChatCreate _ => true | _ => false end.
Definition is_transcribe_call (c : Call) : bool :=
  match c with CallTranscribe _ => true | _ => false end.
Definition is_remove_call (c : Call) : bool :=
  match c with CallOsRemove _ => true | _ => false end.

(** ** Library calls *)

Section Program.
Context {E : Type}.
(** [str(e)] for an exception: the formatting of the exceptions of the
    standard library is the runtime's and is taken as given. *)
Variable py_str : Exn -> str.
Variable env : Env E.

Definition gettempdir : M E str :=
  fun w =>
    let '(d, e') := tempfile_gettempdir env (ext w) in
    (inr d, Build_World (fs w) e', [(CallGettempdir, ReplyStr d)]).

(** [str(uuid.uuid4())] *)
Definition uuid4 : M E str :=
  fun w =>
    let '(u, e') := uuid_uuid4 env (ext w) in
    (inr u, Build_World (fs w) e', [(CallUuid4, ReplyStr u)]).

(** [subprocess.run(cmd, check=check)]: with [check], a non-zero return
    code raises [CalledProcessError]. *)
Definition subprocess_run (cmd : list str) (check : bool) : M E Z :=
  fun w =>
    let '(r, fs', e') := spawn env cmd (fs w) (ext w) in
    let w' := Build_World fs' e' in
    let t := [(CallSubprocessRun cmd, ReplyExit r)] in
    match r with
    | inl e => (inl e, w', t)
    | inr rc =>
        if check && negb (rc =? 0)
        then (inl (CalledProcessError rc cmd), w', t)
        else (inr rc, w', t)
    end.

(** [m.transcribe(path)["text"]]: the model reads the audio from the file
    at [path] and leaves the file system alone.  With no file there it
    cannot load the audio and raises (the text of that error, which quotes
    the decoder's own output, is cut short here). *)
Definition transcribe (m : WhisperModel E) (path : str) : M E str :=
  fun w =>
    if bool_decide (path ∈ fs w)
    then
      let '(r, e') := decode m path (ext w) in
      (r, Build_World (fs w) e', [(CallTranscribe path, ReplyText r)])
    else
      let r := inl (RuntimeError (lit "Failed to load audio")) in
      (r, w, [(CallTranscribe path, ReplyText r)]).

(** [os.remove(path)] *)
Definition os_remove (path : str) : M E unit :=
  fun w =>
    if bool_decide (path ∈ fs w)
    then (inr tt, Build_World (fs w ∖ {[path]}) (ext w),
          [(CallOsRemove path, ReplyUnit (inr tt))])
    else (inl (FileNotFoundError path), w,
          [(CallOsRemove path, ReplyUnit (inl (FileNotFoundError path)))]).

(** [client.chat.completions.create(model=.., messages=.., max_tokens=..)] *)
Definition chat_create (req : ChatRequest) : M E ChatCompletion :=
  fun w =>
    let '(r, e') := chat_completions_create (client env) req (ext w) in
    (r, Build_World (fs w) e', [(CallChatCreate req, ReplyChat r)]).

(** [response.choices[0].message.content] *)
Definition first_choice_content (response : ChatCompletion) : M E PyVal :=
  match choices response with
  | [] => raise IndexError
  | c :: _ => ret (content (message c))
  end.

(** ** The helper functions of [main_youtube.py] *)

Definition download_youtube_audio (url : str) : M E str :=
  d <- gettempdir ;;
  u <- uuid4 ;;
  let temp_path := os_path_join d (u ++ lit ".mp3") in
  let command :=
    [lit "yt-dlp";
     lit "--extract-audio";
     lit "--audio-format"; lit "mp3";
     lit "--output"; temp_path;
     url] in
  _ <- subprocess_run command true ;;
  ret temp_path.

Definition llm_model : str := lit "deepseek/deepseek-r1-distill-qwen-32b:free".

Definition correct_prompt (raw_text : PyVal) : str :=
  text_block
    [lit "You are a professional transcript editor.";
     [];
     lit "Correct the following transcript by:";
     lit "- Fixing grammar, punctuation, and structure";
     lit "- Removing filler words (like 'um', 'uh', etc.)";
     lit "- Making the transcript readable";
     [];
     lit "Transcript:";
     format_value raw_text].

Definition correct_transcript (raw_text : PyVal) : M E PyVal :=
  let prompt := correct_prompt raw_text in
  response <- chat_create
    {| model := llm_model;
       messages :=
         [ {| role := lit "system"; content := PStr (lit "You are a transcription corrector.") |};
           {| role := lit "user"; content := PStr prompt |} ];
       max_tokens := 1000 |} ;;
  first_choice_content response.

Definition summarize_prompt (text : PyVal) : str :=
  text_block
    [lit "Summarize the following transcript into organized, sectioned notes.";
     [];
     lit "Instructions:";
     lit "- Use clear **section headings** (bold)";
     lit "- List 3" ++ [8211%N] ++ lit "5 bullet points per section";
     lit "- Group similar ideas together";
     lit "- Be concise and avoid repetition";
     [];
     lit "Transcript:";
     format_value text].

Definition summarize_text (text : PyVal) : M E PyVal :=
  let prompt := summarize_prompt text in
  response <- chat_create
    {| model := llm_model;
       messages :=
         [ {| role := lit "system"; content := PStr (lit "You are an expert summarizer.") |};
           {| role := lit "user"; content := PStr prompt |} ];
       max_tokens := 1000 |} ;;
  first_choice_content response.

Definition polish_prompt (summary : PyVal) : str :=
  text_block
    [lit "Polish the following grouped bullet points to improve structure, clarity, and formatting.";
     [];
     lit "Guidelines:";
     lit "- Keep section headers bolded";
     lit "- Use clear, concise bullets";
     lit "- Ensure spacing and formatting is consistent";
     lit "-Make sure the bullet points are considerably smaller and easy to memorize than the summary. ";
     lit "- Do not use has. Only use bullet points to mark the points.";
     [];
     lit "Content:";
     format_value summary].

Definition polish_bullets (summary : PyVal) : M E PyVal :=
  let prompt := polish_prompt summary in
  response <- chat_create
    {| model := llm_model;
       messages :=
         [ {| role := lit "system"; content := PStr (lit "You are a bullet point refiner.") |};
           {| role := lit "user"; content := PStr prompt |} ];
       max_tokens := 1000 |} ;;
  first_choice_content response.

(** ** The endpoint *)

Record YouTubeRequest := { url : str }.

Definition degraded_message : str :=
  lit "The audio is too corrupted or noisy to extract useful content.".

(** [not raw_transcript or len(raw_transcript.split()) < 5] *)
Definition poor_input (raw_transcript : str) : bool :=
  bool_decide (raw_transcript = []) || (Z.of_nat (length (split raw_transcript)) <? 5).

Definition process_youtube (req : YouTubeRequest) : M E (gmap string PyVal) :=
  match whisper_model env with
  | None => raise (HTTPException 500 (lit "Whisper model not loaded"))
  | Some m =>
      try_except
        (audio_path <- download_youtube_audio (url req) ;;
         text <- transcribe m audio_path ;;
         let raw_transcript := strip text in
         _ <- os_remove audio_path ;;
         if poor_input raw_transcript
         then ret {[ "polished_summary" := PStr degraded_message ]}
         else
           corrected <- correct_transcript (PStr raw_transcript) ;;
           summary <- summarize_text corrected ;;
           polished <- polish_bullets summary ;;
           ret (<[ "summary" := summary ]> {[ "polished_summary" := polished ]}))
        (fun e =>
           raise (HTTPException 500 (lit "YouTube pipeline failed: " ++ py_str e)))
  end.

End Program.

Arguments url _ : clear implicits.

(** What the framework makes of the handler's outcome: a returned object is
    sent with status 200, an [HTTPException] with its own status and its
    detail, anything else is an internal server error. *)
Definition http_status (r : Exn + gmap string PyVal) : Z :=
  match r with
  | inr _ => 200
  | inl (HTTPException s _) => s
  | inl _ => 500
  end.

Definition http_detail (r : Exn + gmap string PyVal) : option str :=
  match r with
  | inl (HTTPException _ d) => Some d
  | _ => None
  end.

(** ** The refinement stage as the specification words it

    One operation [refine] over three roles, each role with a fixed system
    instruction and a fixed template for the user prompt, and one cap on
    the length of the output for all roles.  The source has three separate
    functions instead; [stage] names them by role. *)

Inductive RefinementRole := Correction | Summarization | Polishing.

Definition system_instruction (r : RefinementRole) : str :=
  match r with
  | Correction => lit "You are a transcription corrector."
  | Summarization => lit "You are an expert summarizer."
  | Polishing => lit "You are a bullet point refiner."
  end.

Definition user_prompt (r : RefinementRole) (text : PyVal) : str :=
  match r with
  | Correction => correct_prompt text
  | Summarization => summarize_prompt text
  | Polishing => polish_prompt text
  end.

Definition output_cap : Z := 1000.

Definition refine_request (r : RefinementRole) (text : PyVal) : ChatRequest :=
  {| model := llm_model;
     messages :=
       [ {| role := lit "system"; content := PStr (system_instruction r) |};
         {| role := lit "user"; content := PStr (user_prompt r text) |} ];
     max_tokens := output_cap |}.

Definition refine {E} (env : Env E) (r : RefinementRole) (text : PyVal) : M E PyVal :=
  response <- chat_create env (refine_request r text) ;;
  first_choice_content response.

Definition stage {E} (env : Env E) (r : RefinementRole) : PyVal -> M E PyVal :=
  match r with
  | Correction => correct_transcript env
  | Summarization => summarize_text env
  | Polishing => polish_bullets env
  end.

(** ** Names for parts of the handler

    The command line handed to the download tool, the handler of the
    [except] clause, and what is left of the [try] block once the audio
    file has been removed. *)

Definition yt_dlp_command (temp_path url : str) : list str :=
  [lit "yt-dlp"; lit "--extract-audio"; lit "--audio-format"; lit "mp3";
   lit "--output"; temp_path; url].

Definition pipeline_failed {E A} (py_str : Exn -> str) (e : Exn) : M E A :=
  raise (HTTPException 500 (lit "YouTube pipeline failed: " ++ py_str e)).

Definition gate_and_refine {E} (env : Env E) (raw_transcript : str)
  : M E (gmap string PyVal) :=
  if poor_input raw_transcript
  then ret {[ "polished_summary" := PStr degraded_message ]}
  else
    corrected <- correct_transcript env (PStr raw_transcript) ;;
    summary <- summarize_text env corrected ;;
    polished <- polish_bullets env summary ;;
    ret (<[ "summary" := summary ]> {[ "polished_summary" := polished ]}).

Definition removal (path : str) : Event := (CallOsRemove path, ReplyUnit (inr tt)).

(** ** Comparing two runs

    Two computations are [determined] when, started in any two worlds, equal
    replies from the collaborators force equal outcomes and equal calls. *)

Definition determined {E1 E2 A} (c1 : M E1 A) (c2 : M E2 A) : Prop :=
  forall w1 w2,
    replies (trace_of (c1 w1)) = replies (trace_of (c2 w2)) ->
    result_of (c1 w1) = result_of (c2 w2)
    /\ calls (trace_of (c1 w1)) = calls (trace_of (c2 w2)).

(** The same, stable under sequencing: the replies of the two runs may be
    followed by anything. *)
Definition agree {E1 E2 A} (c1 : M E1 A) (c2 : M E2 A) : Prop :=
  forall w1 w2 r1 r2,
    replies (trace_of (c1 w1)) ++ r1 = replies (trace_of (c2 w2)) ++ r2 ->
    result_of (c1 w1) = result_of (c2 w2)
    /\ trace_of (c1 w1) = trace_of (c2 w2).

(** A computation is [chat_only] when it leaves the file system as it found
    it and calls nothing but the chat client. *)
Definition chat_only {E A} (c : M E A) : Prop :=
  forall w, fs (world_of (c w)) = fs w
            /\ forallb is_chat_call (calls (trace_of (c w))) = true.

(** The detail of an error response names the pipeline as what failed. *)
Definition mentions_pipeline_failure (detail : str) : bool :=
  startswith (lit "YouTube pipeline failed: ") detail.

(** The generic error of the pipeline boundary: status 500 and a detail that
    names the pipeline. *)
Definition generic_pipeline_failure (r : Exn + gmap string PyVal) : bool :=
  match r with
  | inl (HTTPException s d) => (s =? 500) && mentions_pipeline_failure d
  | _ => false
  end.

(** The fifth claim, as it is worded: a failure of the download is
    reported with a kind of its own, and so never as the generic pipeline
    failure. *)
Definition fetch_failure_has_own_kind (py_str : Exn -> str) : Prop :=
  forall E (env : Env E) m req w0 e w1 t1,
    whisper_model env = Some m ->
    download_youtube_audio env (url req) w0 = (inl e, w1, t1) ->
    generic_pipeline_failure (result_of (process_youtube py_str env req w0)) = false.

(** ** A concrete world, to run the program in

    The external state counts the chat completions served.  The download
    tool exits with [rc] and, when [rc] is zero, leaves a file at the path
    given after [--output]; the model decodes any file to [heard]; the chat
    client answers through [answer]. *)

(** [str(e)] in the demo.  For [CalledProcessError] and
    [FileNotFoundError] this is the text Python prints when the return code
    is positive and the words of the command are plain ASCII without quotes
    or backslashes, as in every run below. *)
Definition quoted (s : str) : str := lit "'" ++ s ++ lit "'".

Fixpoint comma_separated (l : list str) : str :=
  match l with
  | [] => []
  | [x] => x
  | x :: l' => x ++ lit ", " ++ comma_separated l'
  end.

Definition list_repr (l : list str) : str :=
  lit "[" ++ comma_separated (List.map quoted l) ++ lit "]".

Definition demo_str (e : Exn) : str :=
  match e with
  | CalledProcessError rc cmd =>
      lit "Command '" ++ list_repr cmd ++ lit "' returned non-zero exit status "
      ++ lit (pretty rc) ++ lit "."
  | FileNotFoundError f => lit "[Errno 2] No such file or directory: " ++ quoted f
  | RuntimeError m => m
  | IndexError => lit "list index out of range"
  | HTTPException s d => lit (pretty s) ++ lit ": " ++ d
  | OtherException _ m => m
  end.

Definition demo_tool (rc : Z) (cmd : list str) (files : gset str) (e : nat)
  : (Exn + Z) * gset str * nat :=
  match cmd !! 5%nat with
  | Some out => (inr rc, if rc =? 0 then files ∪ {[out]} else files, e)
  | None => (inr rc, files, e)
  end.

Definition demo_completion (s : str) : ChatCompletion :=
  {| choices := [ {| message := {| role := lit "assistant"; content := PStr s |} |} ] |}.

Definition demo_env (loaded : bool) (rc : Z) (heard : Exn + str)
    (answer : ChatRequest -> nat -> Exn + ChatCompletion) : Env nat :=
  {| whisper_model :=
       if loaded then Some {| decode := fun _ e => (heard, e) |} else None;
     client := {| chat_completions_create := fun req e => (answer req e, S e) |};
     tempfile_gettempdir := fun e => (lit "/tmp", e);
     uuid_uuid4 := fun e => (lit "1b4e28ba-2fa1-41d2-883f-0016d3cca427", e);
     spawn := demo_tool rc |}.

Definition demo_world : World nat := {| fs := ∅; ext := 0%nat |}.

Definition demo_request : YouTubeRequest := {| url := lit "https://youtu.be/x" |}.

Definition demo_path : str := lit "/tmp/1b4e28ba-2fa1-41d2-883f-0016d3cca427.mp3".

(** The chat client of the demo answers by position: first the corrected
    text, then the notes, then the polished notes. *)
Definition demo_answer (req : ChatRequest) (e : nat) : Exn + ChatCompletion :=
  match e with
  | O => inr (demo_completion (lit "corrected text"))
  | S O => inr (demo_completion (lit "**Notes**"))
  | _ => inr (demo_completion (lit "**Short notes**"))
  end.

Definition demo_talk : str := lit "so um today we talk about monads".

(** Another world for the same run: no external state, files already in
    place under another name, and a client that tells the three requests
    apart by their system instruction. *)
Definition stateless_answer (req : ChatRequest) : Exn + ChatCompletion :=
  match messages req with
  | {| content := PStr sys |} :: _ =>
      if bool_decide (sys = system_instruction Correction)
      then inr (demo_completion (lit "corrected text"))
      else if bool_decide (sys = system_instruction Summarization)
      then inr (demo_completion (lit "**Notes**"))
      else inr (demo_completion (lit "**Short notes**"))
  | _ => inl (OtherException "BadRequestError" (lit "no system message"))
  end.

Definition stateless_env : Env unit :=
  {| whisper_model := Some {| decode := fun _ e => (inr demo_talk, e) |};
     client := {| chat_completions_create := fun req e => (stateless_answer req, e) |};
     tempfile_gettempdir := fun e => (lit "/tmp", e);
     uuid_uuid4 := fun e => (lit "1b4e28ba-2fa1-41d2-883f-0016d3cca427", e);
     spawn := fun cmd files e => (inr 0, files ∪ {[demo_path]}, e) |}.

Definition stateless_world : World unit :=
  {| fs := {[ lit "/tmp/leftover.mp3" ]}; ext := tt |}.

(** ** The order of the calls

    The kinds of call the handler can make, and the one order in which a
    full run makes them. *)

Inductive CallKind :=
| KGettempdir | KUuid4 | KSubprocessRun | KTranscribe | KOsRemove | KChatCreate.

Definition kind_of (c : Call) : CallKind :=
  match c with
  | CallGettempdir => KGettempdir
  | CallUuid4 => KUuid4
  | CallSubprocessRun _ => KSubprocessRun
  | CallTranscribe _ => KTranscribe
  | CallOsRemove _ => KOsRemove
  | CallChatCreate _ => KChatCreate
  end.

Definition full_run : list CallKind :=
  [KGettempdir; KUuid4; KSubprocessRun; KTranscribe; KOsRemove;
   KChatCreate; KChatCreate; KChatCreate].

(** ** More worlds to run in

    A chat client that fails on its [n]-th request, one that sends no
    choice at all, one whose first answer has no content; a machine without
    the download tool; a download tool that leaves a partial file behind
    and exits with 1. *)

Definition failing_answer (n : nat) (req : ChatRequest) (e : nat)
  : Exn + ChatCompletion :=
  if (e =? n)%nat
  then inl (OtherException "RateLimitError" (lit "Rate limit exceeded"))
  else demo_answer req e.

Definition no_choice_answer (req : ChatRequest) (e : nat) : Exn + ChatCompletion :=
  inr {| choices := [] |}.

Definition none_first_answer (req : ChatRequest) (e : nat) : Exn + ChatCompletion :=
  match e with
  | O => inr {| choices :=
                  [ {| message := {| role := lit "assistant"; content := PNone |} |} ] |}
  | _ => demo_answer req e
  end.

Definition with_spawn {E} (env : Env E)
    (tool : list str -> gset str -> E -> (Exn + Z) * gset str * E) : Env E :=
  {| whisper_model := whisper_model env;
     client := client env;
     tempfile_gettempdir := tempfile_gettempdir env;
     uuid_uuid4 := uuid_uuid4 env;
     spawn := tool |}.

Definition missing_tool (cmd : list str) (files : gset str) (e : nat)
  : (Exn + Z) * gset str * nat :=
  (inl (FileNotFoundError (lit "yt-dlp")), files, e).

Definition partial_tool (cmd : list str) (files : gset str) (e : nat)
  : (Exn + Z) * gset str * nat :=
  match cmd !! 5%nat with
  | Some out => (inr 1, files ∪ {[out ++ lit ".part"]}, e)
  | None => (inr 1, files, e)
  end.

(** * Properties *)

Example strip_ex : strip (lit "  hi there  ") = lit "hi there".
Proof. reflexivity. Qed.

Example split_ex :
  split (lit " a  bc d ") = [lit "a"; lit "bc"; lit "d"].
Proof. reflexivity. Qed.

Example split_nbsp : split (lit "a" ++ [160%N] ++ lit "b") = [lit "a"; lit "b"].
Proof. reflexivity. Qed.

Example demo_run_normal :
  process_youtube demo_str (demo_env true 0 (inr demo_talk) demo_answer)
    demo_request demo_world
  = (inr (<[ "summary" := PStr (lit "**Notes**") ]>
            {[ "polished_summary" := PStr (lit "**Short notes**") ]}),
     {| fs := ∅; ext := 3%nat |},
     [ (CallGettempdir, ReplyStr (lit "/tmp"));
       (CallUuid4, ReplyStr (lit "1b4e28ba-2fa1-41d2-883f-0016d3cca427"));
       (CallSubprocessRun
          [lit "yt-dlp"; lit "--extract-audio"; lit "--audio-format"; lit "mp3";
           lit "--output"; demo_path; lit "https://youtu.be/x"],
        ReplyExit (inr 0));
       (CallTranscribe demo_path, ReplyText (inr demo_talk));
       (CallOsRemove demo_path, ReplyUnit (inr tt));
       (CallChatCreate (refine_request Correction (PStr demo_talk)),
        ReplyChat (inr (demo_completion (lit "corrected text"))));
       (CallChatCreate (refine_request Summarization (PStr (lit "corrected text"))),
        ReplyChat (inr (demo_completion (lit "**Notes**"))));
       (CallChatCreate (refine_request Polishing (PStr (lit "**Notes**"))),
        ReplyChat (inr (demo_completion (lit "**Short notes**")))) ]).
Proof. vm_compute. reflexivity. Qed.

(** ** Running the monad *)

Section Run.
Context {E : Type}.

Lemma bind_inr {A B} (c : M E A) (k : A -> M E B) w a w1 t1 :
  c w = (inr a, w1, t1) ->
  bind c k w = (result_of (k a w1), world_of (k a w1), t1 ++ trace_of (k a w1)).
Proof.
  intros Hc. unfold bind. rewrite Hc.
  destruct (k a w1) as [[r w2] t2]. reflexivity.
Qed.

Lemma bind_inl {A B} (c : M E A) (k : A -> M E B) w e w1 t1 :
  c w = (inl e, w1, t1) -> bind c k w = (inl e, w1, t1).
Proof. intros Hc. unfold bind. rewrite Hc. reflexivity. Qed.

Lemma try_except_inr {A} (c : M E A) (h : Exn -> M E A) w a w1 t1 :
  c w = (inr a, w1, t1) -> try_except c h w = (inr a, w1, t1).
Proof. intros Hc. unfold try_except. rewrite Hc. reflexivity. Qed.

Lemma try_except_inl {A} (c : M E A) (h : Exn -> M E A) w e w1 t1 :
  c w = (inl e, w1, t1) ->
  try_except c h w = (result_of (h e w1), world_of (h e w1), t1 ++ trace_of (h e w1)).
Proof.
  intros Hc. unfold try_except. rewrite Hc.
  destruct (h e w1) as [[r w2] t2]. reflexivity.
Qed.

Lemma result_of_mk {A} (r : Exn + A) (w : World E) (t : list Event) :
  result_of (r, w, t) = r.
Proof. reflexivity. Qed.

Lemma world_of_mk {A} (r : Exn + A) (w : World E) (t : list Event) :
  world_of (r, w, t) = w.
Proof. reflexivity. Qed.

Lemma trace_of_mk {A} (r : Exn + A) (w : World E) (t : list Event) :
  trace_of (r, w, t) = t.
Proof. reflexivity. Qed.

Variable env : Env E.

(** *** The library calls, case by case *)

Lemma transcribe_inr (m : WhisperModel E) path w text w' t :
  transcribe m path w = (inr text, w', t) ->
  path ∈ fs w /\ fs w' = fs w /\ t = [(CallTranscribe path, ReplyText (inr text))].
Proof.
  unfold transcribe. case_bool_decide as Hin.
  - destruct (decode m path (ext w)) as [r e'] eqn:Hd.
    intros [= -> <- <-]. auto.
  - intros [= ].
Qed.

Lemma transcribe_inl (m : WhisperModel E) path w e w' t :
  transcribe m path w = (inl e, w', t) ->
  fs w' = fs w /\ t = [(CallTranscribe path, ReplyText (inl e))].
Proof.
  unfold transcribe. case_bool_decide as Hin.
  - destruct (decode m path (ext w)) as [r e'] eqn:Hd.
    intros [= -> <- <-]. auto.
  - intros [= <- <- <-]. auto.
Qed.

Lemma os_remove_present path (w : World E) :
  path ∈ fs w ->
  os_remove path w
  = (inr tt, Build_World (fs w ∖ {[path]}) (ext w),
     [(CallOsRemove path, ReplyUnit (inr tt))]).
Proof. intros Hin. unfold os_remove. rewrite bool_decide_eq_true_2; auto. Qed.

Lemma chat_create_run req (w : World E) :
  chat_create env req w
  = ((chat_completions_create (client env) req (ext w)).1,
     Build_World (fs w) (chat_completions_create (client env) req (ext w)).2,
     [(CallChatCreate req,
       ReplyChat (chat_completions_create (client env) req (ext w)).1)]).
Proof.
  unfold chat_create.
  destruct (chat_completions_create (client env) req (ext w)) as [r e']. reflexivity.
Qed.

Lemma first_choice_content_run (response : ChatCompletion) (w : World E) :
  world_of (first_choice_content response w) = w
  /\ trace_of (first_choice_content (E:=E) response w) = [].
Proof.
  unfold first_choice_content. destruct (choices response); split; reflexivity.
Qed.

(** Every refinement function is the one operation [refine] at its role. *)
Lemma stage_refine (r : RefinementRole) (text : PyVal) :
  stage env r text = refine env r text.
Proof. destruct r; reflexivity. Qed.

(** One chat call, then nothing else: the shape of a run of [refine]. *)
Lemma refine_run r text (w : World E) :
  fs (world_of (refine env r text w)) = fs w
  /\ trace_of (refine env r text w)
     = [(CallChatCreate (refine_request r text),
         ReplyChat (chat_completions_create (client env) (refine_request r text) (ext w)).1)].
Proof.
  unfold refine, bind. rewrite chat_create_run.
  destruct (chat_completions_create (client env) (refine_request r text) (ext w))
    as [[e|resp] e']; simpl; [auto|].
  destruct (first_choice_content_run resp (Build_World (fs w) e')) as [Hw Ht].
  destruct (first_choice_content resp (Build_World (fs w) e')) as [[r' w2] t2].
  unfold world_of, trace_of in *. simpl in *. subst. auto.
Qed.

Lemma refine_result r text (w : World E) response c rest :
  (chat_completions_create (client env) (refine_request r text) (ext w)).1 = inr response ->
  choices response = c :: rest ->
  result_of (refine env r text w) = inr (content (message c)).
Proof.
  intros Hr Hc. unfold refine, bind. rewrite chat_create_run, Hr.
  unfold first_choice_content. rewrite Hc. reflexivity.
Qed.

(** *** The download step *)

Lemma download_run url (w : World E) :
  let d := (tempfile_gettempdir env (ext w)).1 in
  let e1 := (tempfile_gettempdir env (ext w)).2 in
  let u := (uuid_uuid4 env e1).1 in
  let e2 := (uuid_uuid4 env e1).2 in
  let temp_path := os_path_join d (u ++ lit ".mp3") in
  let cmd := yt_dlp_command temp_path url in
  let x := spawn env cmd (fs w) e2 in
  download_youtube_audio env url w
  = (match x.1.1 with
     | inl e => inl e
     | inr rc => if negb (rc =? 0) then inl (CalledProcessError rc cmd) else inr temp_path
     end,
     Build_World x.1.2 x.2,
     [(CallGettempdir, ReplyStr d); (CallUuid4, ReplyStr u);
      (CallSubprocessRun cmd, ReplyExit x.1.1)]).
Proof.
  unfold download_youtube_audio, bind, gettempdir, uuid4, subprocess_run, yt_dlp_command.
  simpl.
  destruct (tempfile_gettempdir env (ext w)) as [d e1]. simpl.
  destruct (uuid_uuid4 env e1) as [u e2]. simpl.
  destruct (spawn env _ (fs w) e2) as [[[e|rc] fs'] e3]; simpl; [reflexivity|].
  destruct (rc =? 0); reflexivity.
Qed.

Lemma download_trace url (w : World E) r w' t :
  download_youtube_audio env url w = (r, w', t) ->
  exists d u cmd x,
    t = [(CallGettempdir, ReplyStr d); (CallUuid4, ReplyStr u);
         (CallSubprocessRun cmd, ReplyExit x)].
Proof.
  rewrite download_run. intros [= <- <- <-]. eauto.
Qed.

End Run.

(** ** The handler, stage by stage *)

Section Handler.
Context {E : Type}.
Variable py_str : Exn -> str.
Variable env : Env E.

Lemma try_except_bind_inr {A B} (c : M E A) (k : A -> M E B) h w a w1 t1 :
  c w = (inr a, w1, t1) ->
  try_except (bind c k) h w
  = (result_of (try_except (k a) h w1), world_of (try_except (k a) h w1),
     t1 ++ trace_of (try_except (k a) h w1)).
Proof.
  intros Hc. unfold try_except, bind. rewrite Hc.
  destruct (k a w1) as [[[e|b] w2] t2]; simpl; [|reflexivity].
  destruct (h e w2) as [[r w3] t3]. simpl. rewrite app_assoc. reflexivity.
Qed.

Lemma try_except_bind_inl {A B} (c : M E A) (k : A -> M E B) h w e w1 t1 :
  c w = (inl e, w1, t1) ->
  try_except (bind c k) h w
  = (result_of (h e w1), world_of (h e w1), t1 ++ trace_of (h e w1)).
Proof.
  intros Hc. apply try_except_inl. apply bind_inl. exact Hc.
Qed.

(** No model: nothing runs. *)
Lemma process_youtube_unloaded req w :
  whisper_model env = None ->
  process_youtube py_str env req w
  = (inl (HTTPException 500 (lit "Whisper model not loaded")), w, []).
Proof. intros Hm. unfold process_youtube. rewrite Hm. reflexivity. Qed.

(** The download fails: the [except] clause takes over at once. *)
Lemma process_youtube_download_failed m req w0 e w1 t1 :
  whisper_model env = Some m ->
  download_youtube_audio env (url req) w0 = (inl e, w1, t1) ->
  process_youtube py_str env req w0
  = (inl (HTTPException 500 (lit "YouTube pipeline failed: " ++ py_str e)), w1, t1).
Proof.
  intros Hm Hd. unfold process_youtube. rewrite Hm.
  rewrite (try_except_bind_inl _ _ _ _ _ _ _ Hd).
  unfold raise, result_of, world_of, trace_of. simpl. rewrite app_nil_r. reflexivity.
Qed.

(** The transcription fails: likewise, and [os.remove] is never reached. *)
Lemma process_youtube_transcribe_failed m req w0 path w1 t1 e w2 t2 :
  whisper_model env = Some m ->
  download_youtube_audio env (url req) w0 = (inr path, w1, t1) ->
  transcribe m path w1 = (inl e, w2, t2) ->
  process_youtube py_str env req w0
  = (inl (HTTPException 500 (lit "YouTube pipeline failed: " ++ py_str e)), w2, t1 ++ t2).
Proof.
  intros Hm Hd Ht. unfold process_youtube. rewrite Hm.
  rewrite (try_except_bind_inr _ _ _ _ _ _ _ Hd).
  rewrite (try_except_bind_inl _ _ _ _ _ _ _ Ht).
  unfold raise, result_of, world_of, trace_of. simpl. rewrite app_nil_r. reflexivity.
Qed.

(** Download and transcription succeed: the file is removed, and the rest
    of the [try] block runs in the world without it. *)
Lemma process_youtube_transcribed m req w0 path w1 t1 text w2 t2 :
  whisper_model env = Some m ->
  download_youtube_audio env (url req) w0 = (inr path, w1, t1) ->
  transcribe m path w1 = (inr text, w2, t2) ->
  let w3 := Build_World (fs w2 ∖ {[path]}) (ext w2) in
  let o := try_except (gate_and_refine env (strip text)) (pipeline_failed py_str) w3 in
  process_youtube py_str env req w0
  = (result_of o, world_of o, t1 ++ t2 ++ removal path :: trace_of o).
Proof.
  intros Hm Hd Ht w3 o. unfold process_youtube. rewrite Hm.
  destruct (transcribe_inr _ _ _ _ _ _ Ht) as (Hin & Hfs & _).
  rewrite (try_except_bind_inr _ _ _ _ _ _ _ Hd).
  rewrite (try_except_bind_inr _ _ _ _ _ _ _ Ht).
  assert (Hrm : os_remove path w2 = (inr tt, w3, [removal path])).
  { apply os_remove_present. rewrite Hfs. exact Hin. }
  rewrite (try_except_bind_inr _ _ _ _ _ _ _ Hrm).
  unfold result_of, world_of, trace_of. simpl. reflexivity.
Qed.

(** The three refinement calls succeed, one after the other. *)
Lemma gate_and_refine_ok raw w3 c w4 tc s w5 ts p w6 tp :
  poor_input raw = false ->
  correct_transcript env (PStr raw) w3 = (inr c, w4, tc) ->
  summarize_text env c w4 = (inr s, w5, ts) ->
  polish_bullets env s w5 = (inr p, w6, tp) ->
  gate_and_refine env raw w3
  = (inr (<[ "summary" := s ]> {[ "polished_summary" := p ]}), w6, tc ++ ts ++ tp).
Proof.
  intros Hg Hc Hs Hp. unfold gate_and_refine. rewrite Hg.
  rewrite (bind_inr _ _ _ _ _ _ Hc), (bind_inr _ _ _ _ _ _ Hs), (bind_inr _ _ _ _ _ _ Hp).
  unfold ret, result_of, world_of, trace_of. simpl. rewrite app_nil_r. reflexivity.
Qed.

End Handler.

Section Paths.
Context {E : Type}.
Variable py_str : Exn -> str.
Variable env : Env E.

(** The [not raw_transcript] half of the gate adds nothing: an empty text
    has no words. *)
Lemma poor_input_words (raw : str) :
  poor_input raw = true <-> (length (split raw) < 5)%nat.
Proof.
  unfold poor_input. rewrite orb_true_iff, bool_decide_eq_true, Z.ltb_lt.
  split.
  - intros [-> | H]; [simpl; lia | lia].
  - intros H. right. lia.
Qed.

Lemma poor_input_false (raw : str) :
  poor_input raw = false <-> (5 <= length (split raw))%nat.
Proof.
  destruct (poor_input raw) eqn:Hp.
  - apply poor_input_words in Hp. split; [discriminate | lia].
  - split; [intros _ | reflexivity].
    destruct (le_lt_dec 5 (length (split raw))) as [H|H]; [exact H|].
    apply poor_input_words in H. congruence.
Qed.

(** The degraded path, as one equation. *)
Lemma process_youtube_degraded m req w0 path w1 t1 text w2 t2 :
  whisper_model env = Some m ->
  download_youtube_audio env (url req) w0 = (inr path, w1, t1) ->
  transcribe m path w1 = (inr text, w2, t2) ->
  poor_input (strip text) = true ->
  process_youtube py_str env req w0
  = (inr {[ "polished_summary" := PStr degraded_message ]},
     Build_World (fs w2 ∖ {[path]}) (ext w2),
     t1 ++ t2 ++ [removal path]).
Proof.
  intros Hm Hd Ht Hg.
  rewrite (process_youtube_transcribed py_str env m req w0 path w1 t1 text w2 t2 Hm Hd Ht).
  unfold gate_and_refine. rewrite Hg. reflexivity.
Qed.

(** The normal path, as one equation. *)
Lemma process_youtube_normal m req w0 path w1 t1 text w2 t2 c w4 tc s w5 ts p w6 tp :
  whisper_model env = Some m ->
  download_youtube_audio env (url req) w0 = (inr path, w1, t1) ->
  transcribe m path w1 = (inr text, w2, t2) ->
  poor_input (strip text) = false ->
  correct_transcript env (PStr (strip text))
    (Build_World (fs w2 ∖ {[path]}) (ext w2)) = (inr c, w4, tc) ->
  summarize_text env c w4 = (inr s, w5, ts) ->
  polish_bullets env s w5 = (inr p, w6, tp) ->
  process_youtube py_str env req w0
  = (inr (<[ "summary" := s ]> {[ "polished_summary" := p ]}), w6,
     t1 ++ t2 ++ removal path :: tc ++ ts ++ tp).
Proof.
  intros Hm Hd Ht Hg Hc Hs Hp.
  rewrite (process_youtube_transcribed py_str env m req w0 path w1 t1 text w2 t2 Hm Hd Ht).
  rewrite (try_except_inr _ _ _ _ _ _
             (gate_and_refine_ok env _ _ _ _ _ _ _ _ _ _ _ Hg Hc Hs Hp)).
  reflexivity.
Qed.

(** The trace of a refinement function that returned. *)
Lemma stage_trace r text (w : World E) res w' t :
  stage env r text w = (res, w', t) ->
  fs w' = fs w /\ calls t = [CallChatCreate (refine_request r text)].
Proof.
  rewrite stage_refine. intros Hrun.
  destruct (refine_run env r text w) as [Hfs Htr].
  rewrite Hrun in Hfs, Htr. unfold world_of, trace_of in *. simpl in *.
  subst t. auto.
Qed.

Lemma download_calls url (w : World E) r w' t :
  download_youtube_audio env url w = (r, w', t) ->
  filter is_chat_call (calls t) = []
  /\ filter is_transcribe_call (calls t) = []
  /\ filter is_remove_call (calls t) = [].
Proof.
  intros Hd. destruct (download_trace env _ _ _ _ _ Hd) as (d & u & cmd & x & ->).
  auto.
Qed.

End Paths.

Lemma startswith_app (p s : str) : startswith p (p ++ s) = true.
Proof. unfold startswith. apply bool_decide_eq_true. apply take_app_length. Qed.

(** * The claims *)

(** C1. When the trimmed transcript is empty or has fewer than five
    whitespace-separated words, the handler returns exactly the object
    with the single key [polished_summary] bound to the fixed message, the
    response is a success (status 200), and no chat completion is
    requested: none of [correct_transcript], [summarize_text],
    [polish_bullets] runs. *)
Theorem poor_transcript_short_circuits {E} (py_str : Exn -> str) (env : Env E)
    m req w0 path w1 t1 text w2 t2 :
  whisper_model env = Some m ->
  download_youtube_audio env (url req) w0 = (inr path, w1, t1) ->
  transcribe m path w1 = (inr text, w2, t2) ->
  strip text = [] \/ (length (split (strip text)) < 5)%nat ->
  let o := process_youtube py_str env req w0 in
  result_of o
  = inr {[ "polished_summary" :=
             PStr (lit "The audio is too corrupted or noisy to extract useful content.") ]}
  /\ http_status (result_of o) = 200
  /\ filter is_chat_call (calls (trace_of o)) = []
  /\ trace_of o = t1 ++ t2 ++ [removal path].
Proof.
  intros Hm Hd Ht Hw o.
  assert (Hg : poor_input (strip text) = true).
  { apply poor_input_words. destruct Hw as [-> | Hw]; [simpl; lia | exact Hw]. }
  subst o. rewrite (process_youtube_degraded py_str env m req _ _ _ _ _ _ _ Hm Hd Ht Hg).
  unfold result_of, trace_of. simpl.
  repeat split.
  destruct (download_calls env _ _ _ _ _ Hd) as (Hc & _).
  destruct (transcribe_inr _ _ _ _ _ _ Ht) as (_ & _ & ->).
  unfold calls in *. rewrite map_app, filter_app, Hc. reflexivity.
Qed.

Lemma poor_transcript_short_circuits_witness :
  let o := process_youtube demo_str (demo_env true 0 (inr (lit " hi ")) demo_answer)
             demo_request demo_world in
  result_of o
  = inr {[ "polished_summary" :=
             PStr (lit "The audio is too corrupted or noisy to extract useful content.") ]}
  /\ http_status (result_of o) = 200
  /\ filter is_chat_call (calls (trace_of o)) = []
  /\ trace_of o
     = [ (CallGettempdir, ReplyStr (lit "/tmp"));
         (CallUuid4, ReplyStr (lit "1b4e28ba-2fa1-41d2-883f-0016d3cca427"));
         (CallSubprocessRun (yt_dlp_command demo_path (lit "https://youtu.be/x")),
          ReplyExit (inr 0)) ]
       ++ [ (CallTranscribe demo_path, ReplyText (inr (lit " hi "))) ]
       ++ [ removal demo_path ].
Proof.
  eapply (poor_transcript_short_circuits demo_str
            (demo_env true 0 (inr (lit " hi ")) demo_answer)
            _ demo_request demo_world demo_path
            {| fs := {[demo_path]}; ext := 0%nat |} _ (lit " hi ")
            {| fs := {[demo_path]}; ext := 0%nat |}).
  - reflexivity.
  - vm_compute. reflexivity.
  - vm_compute. reflexivity.
  - right. vm_compute. lia.
Defined.

(** C2. With a transcript of at least five words and three chat
    completions that succeed, the handler runs the correction on the raw
    transcript, then the summarization on the corrected text, then the
    polishing on the summary, in this order, and returns the object that
    binds [summary] to the summarization's output and [polished_summary]
    to the polishing's output. *)
Theorem good_transcript_runs_three_stages {E} (py_str : Exn -> str) (env : Env E)
    m req w0 path w1 t1 text w2 t2 c w4 tc s w5 ts p w6 tp :
  whisper_model env = Some m ->
  download_youtube_audio env (url req) w0 = (inr path, w1, t1) ->
  transcribe m path w1 = (inr text, w2, t2) ->
  (5 <= length (split (strip text)))%nat ->
  correct_transcript env (PStr (strip text))
    (Build_World (fs w2 ∖ {[path]}) (ext w2)) = (inr c, w4, tc) ->
  summarize_text env c w4 = (inr s, w5, ts) ->
  polish_bullets env s w5 = (inr p, w6, tp) ->
  let o := process_youtube py_str env req w0 in
  result_of o = inr (<[ "summary" := s ]> {[ "polished_summary" := p ]})
  /\ http_status (result_of o) = 200
  /\ trace_of o = t1 ++ t2 ++ removal path :: tc ++ ts ++ tp
  /\ filter is_chat_call (calls (trace_of o))
     = [ CallChatCreate (refine_request Correction (PStr (strip text)));
         CallChatCreate (refine_request Summarization c);
         CallChatCreate (refine_request Polishing s) ].
Proof.
  intros Hm Hd Ht Hw Hc Hs Hp o.
  assert (Hg : poor_input (strip text) = false) by (apply poor_input_false; exact Hw).
  subst o.
  rewrite (process_youtube_normal py_str env m req _ _ _ _ _ _ _ _ _ _ _ _ _ _ _ _
             Hm Hd Ht Hg Hc Hs Hp).
  unfold result_of, trace_of. simpl. repeat split.
  destruct (download_calls env _ _ _ _ _ Hd) as (Hdc & _).
  destruct (transcribe_inr _ _ _ _ _ _ Ht) as (_ & _ & ->).
  destruct (stage_trace env Correction _ _ _ _ _ Hc) as (_ & Hcc).
  destruct (stage_trace env Summarization _ _ _ _ _ Hs) as (_ & Hsc).
  destruct (stage_trace env Polishing _ _ _ _ _ Hp) as (_ & Hpc).
  unfold calls in *.
  rewrite map_app, filter_app, Hdc. simpl.
  rewrite !map_app, Hcc, Hsc, Hpc. reflexivity.
Qed.

Lemma good_transcript_runs_three_stages_witness :
  let o := process_youtube demo_str (demo_env true 0 (inr demo_talk) demo_answer)
             demo_request demo_world in
  result_of o
  = inr (<[ "summary" := PStr (lit "**Notes**") ]>
           {[ "polished_summary" := PStr (lit "**Short notes**") ]})
  /\ http_status (result_of o) = 200
  /\ trace_of o
     = [ (CallGettempdir, ReplyStr (lit "/tmp"));
         (CallUuid4, ReplyStr (lit "1b4e28ba-2fa1-41d2-883f-0016d3cca427"));
         (CallSubprocessRun (yt_dlp_command demo_path (lit "https://youtu.be/x")),
          ReplyExit (inr 0)) ]
       ++ [ (CallTranscribe demo_path, ReplyText (inr demo_talk)) ]
       ++ removal demo_path
       :: [ (CallChatCreate (refine_request Correction (PStr demo_talk)),
             ReplyChat (inr (demo_completion (lit "corrected text")))) ]
       ++ [ (CallChatCreate (refine_request Summarization (PStr (lit "corrected text"))),
             ReplyChat (inr (demo_completion (lit "**Notes**")))) ]
       ++ [ (CallChatCreate (refine_request Polishing (PStr (lit "**Notes**"))),
             ReplyChat (inr (demo_completion (lit "**Short notes**")))) ]
  /\ filter is_chat_call (calls (trace_of o))
     = [ CallChatCreate (refine_request Correction (PStr (strip demo_talk)));
         CallChatCreate (refine_request Summarization (PStr (lit "corrected text")));
         CallChatCreate (refine_request Polishing (PStr (lit "**Notes**"))) ].
Proof.
  eapply (good_transcript_runs_three_stages demo_str
            (demo_env true 0 (inr demo_talk) demo_answer)
            _ demo_request demo_world demo_path
            {| fs := {[demo_path]}; ext := 0%nat |} _ demo_talk
            {| fs := {[demo_path]}; ext := 0%nat |} _
            (PStr (lit "corrected text")) {| fs := ∅; ext := 1%nat |} _
            (PStr (lit "**Notes**")) {| fs := ∅; ext := 2%nat |} _
            (PStr (lit "**Short notes**")) {| fs := ∅; ext := 3%nat |}).
  - reflexivity.
  - vm_compute. reflexivity.
  - vm_compute. reflexivity.
  - vm_compute. lia.
  - vm_compute. reflexivity.
  - vm_compute. reflexivity.
  - vm_compute. reflexivity.
Defined.

(** C3. When the download tool exits with a non-zero code, the handler
    answers with status 500 and a detail that names the pipeline failure,
    and neither the transcription nor any chat completion is called: the
    download is the last thing the run does. *)
Theorem download_failure_stops_pipeline {E} (py_str : Exn -> str) (env : Env E)
    m req w0 rc files' e' :
  let d := (tempfile_gettempdir env (ext w0)).1 in
  let e1 := (tempfile_gettempdir env (ext w0)).2 in
  let u := (uuid_uuid4 env e1).1 in
  let e2 := (uuid_uuid4 env e1).2 in
  let cmd := yt_dlp_command (os_path_join d (u ++ lit ".mp3")) (url req) in
  whisper_model env = Some m ->
  spawn env cmd (fs w0) e2 = (inr rc, files', e') ->
  rc <> 0 ->
  let o := process_youtube py_str env req w0 in
  result_of o
  = inl (HTTPException 500
           (lit "YouTube pipeline failed: " ++ py_str (CalledProcessError rc cmd)))
  /\ http_status (result_of o) = 500
  /\ (exists detail, http_detail (result_of o) = Some detail
                     /\ mentions_pipeline_failure detail = true)
  /\ filter is_transcribe_call (calls (trace_of o)) = []
  /\ filter is_chat_call (calls (trace_of o)) = []
  /\ trace_of o
     = [ (CallGettempdir, ReplyStr d); (CallUuid4, ReplyStr u);
         (CallSubprocessRun cmd, ReplyExit (inr rc)) ].
Proof.
  intros d e1 u e2 cmd Hm Hsp Hrc o.
  pose proof (download_run env (url req) w0) as Hd. cbv zeta in Hd.
  fold d e1 u e2 cmd in Hd. rewrite Hsp in Hd. simpl in Hd.
  assert (Hnz : (rc =? 0) = false) by (apply Z.eqb_neq; exact Hrc).
  rewrite Hnz in Hd. simpl in Hd.
  subst o. rewrite (process_youtube_download_failed py_str env m req _ _ _ _ Hm Hd).
  unfold result_of, trace_of. cbn [fst snd].
  split; [reflexivity|]. split; [reflexivity|]. split; [|repeat split].
  exists (lit "YouTube pipeline failed: " ++ py_str (CalledProcessError rc cmd)).
  split; [reflexivity|]. apply startswith_app.
Qed.

Lemma download_failure_stops_pipeline_witness :
  let o := process_youtube demo_str (demo_env true 1 (inr demo_talk) demo_answer)
             demo_request demo_world in
  let cmd := yt_dlp_command demo_path (lit "https://youtu.be/x") in
  result_of o
  = inl (HTTPException 500
           (lit "YouTube pipeline failed: " ++ demo_str (CalledProcessError 1 cmd)))
  /\ http_status (result_of o) = 500
  /\ (exists detail, http_detail (result_of o) = Some detail
                     /\ mentions_pipeline_failure detail = true)
  /\ filter is_transcribe_call (calls (trace_of o)) = []
  /\ filter is_chat_call (calls (trace_of o)) = []
  /\ trace_of o
     = [ (CallGettempdir, ReplyStr (lit "/tmp"));
         (CallUuid4, ReplyStr (lit "1b4e28ba-2fa1-41d2-883f-0016d3cca427"));
         (CallSubprocessRun cmd, ReplyExit (inr 1)) ].
Proof.
  eapply (download_failure_stops_pipeline demo_str
            (demo_env true 1 (inr demo_talk) demo_answer)
            _ demo_request demo_world 1 ∅ 0%nat).
  - reflexivity.
  - vm_compute. reflexivity.
  - lia.
Defined.

(** C4. When the speech-recognition model is unavailable (the handle is
    [None]), every request fails with status 500 and the fixed detail
    [Whisper model not loaded]; the world is untouched and no call is made:
    no download, no transcription, no refinement. *)
Theorem unloaded_model_fails_fast {E} (py_str : Exn -> str) (env : Env E) req w :
  whisper_model env = None ->
  let o := process_youtube py_str env req w in
  result_of o = inl (HTTPException 500 (lit "Whisper model not loaded"))
  /\ http_status (result_of o) = 500
  /\ world_of o = w
  /\ trace_of o = [].
Proof.
  intros Hm o. subst o. rewrite (process_youtube_unloaded py_str env req w Hm).
  repeat split.
Qed.

Lemma unloaded_model_fails_fast_witness :
  let o := process_youtube demo_str (demo_env false 0 (inr demo_talk) demo_answer)
             demo_request demo_world in
  result_of o = inl (HTTPException 500 (lit "Whisper model not loaded"))
  /\ http_status (result_of o) = 500
  /\ world_of o = demo_world
  /\ trace_of o = [].
Proof.
  apply (unloaded_model_fails_fast demo_str
           (demo_env false 0 (inr demo_talk) demo_answer) demo_request demo_world).
  reflexivity.
Defined.

(** ** What the refinement part of the run may touch *)

Section ChatOnly.
Context {E : Type}.

Lemma chat_only_ret {A} (a : A) : chat_only (ret (E:=E) a).
Proof. intros w. split; reflexivity. Qed.

Lemma chat_only_raise {A} (e : Exn) : chat_only (raise (E:=E) (A:=A) e).
Proof. intros w. split; reflexivity. Qed.

Lemma chat_only_bind {A B} (c : M E A) (k : A -> M E B) :
  chat_only c -> (forall a, chat_only (k a)) -> chat_only (bind c k).
Proof.
  intros Hc Hk w. specialize (Hc w). unfold bind.
  destruct (c w) as [[[e|a] w1] t1]; unfold world_of, trace_of in *; simpl in *.
  - exact Hc.
  - specialize (Hk a w1). destruct (k a w1) as [[r w2] t2].
    unfold world_of, trace_of in *. simpl in *.
    destruct Hc as [Hc1 Hc2], Hk as [Hk1 Hk2]. split; [congruence|].
    unfold calls in *. rewrite map_app, forallb_app, Hc2, Hk2. reflexivity.
Qed.

Lemma chat_only_try_except {A} (c : M E A) (h : Exn -> M E A) :
  chat_only c -> (forall e, chat_only (h e)) -> chat_only (try_except c h).
Proof.
  intros Hc Hh w. specialize (Hc w). unfold try_except.
  destruct (c w) as [[[e|a] w1] t1]; unfold world_of, trace_of in *; simpl in *.
  - specialize (Hh e w1). destruct (h e w1) as [[r w2] t2].
    unfold world_of, trace_of in *. simpl in *.
    destruct Hc as [Hc1 Hc2], Hh as [Hh1 Hh2]. split; [congruence|].
    unfold calls in *. rewrite map_app, forallb_app, Hc2, Hh2. reflexivity.
  - exact Hc.
Qed.

Variable env : Env E.

Lemma chat_only_stage r text : chat_only (stage env r text).
Proof.
  intros w. rewrite stage_refine.
  destruct (refine_run env r text w) as [Hfs Htr]. rewrite Htr. auto.
Qed.

Lemma chat_only_gate_and_refine raw : chat_only (gate_and_refine env raw).
Proof.
  unfold gate_and_refine. destruct (poor_input raw); [apply chat_only_ret|].
  apply chat_only_bind; [apply (chat_only_stage Correction)|]. intros c.
  apply chat_only_bind; [apply (chat_only_stage Summarization)|]. intros s.
  apply chat_only_bind; [apply (chat_only_stage Polishing)|]. intros p.
  apply chat_only_ret.
Qed.

End ChatOnly.

(** C6. Whenever the transcription succeeds, the audio file written by the
    download is removed, and it is removed before the gate on the
    transcript is reached: the removal follows the transcription in the
    trace whatever the transcript is, everything after it is a chat call
    (nothing at all when the transcript fails the gate), and the file is
    absent from the file system the run leaves behind. *)
Theorem audio_removed_after_transcription {E} (py_str : Exn -> str) (env : Env E)
    m req w0 path w1 t1 text w2 t2 :
  whisper_model env = Some m ->
  download_youtube_audio env (url req) w0 = (inr path, w1, t1) ->
  transcribe m path w1 = (inr text, w2, t2) ->
  let o := process_youtube py_str env req w0 in
  path ∈ fs w1
  /\ (path ∉ fs (world_of o))
  /\ fs (world_of o) = fs w1 ∖ {[path]}
  /\ (exists rest,
       trace_of o = t1 ++ t2 ++ removal path :: rest
       /\ forallb is_chat_call (calls rest) = true
       /\ (poor_input (strip text) = true -> rest = [])).
Proof.
  intros Hm Hd Ht o.
  destruct (transcribe_inr _ _ _ _ _ _ Ht) as (Hin & Hfs & _).
  subst o.
  rewrite (process_youtube_transcribed py_str env m req _ _ _ _ _ _ _ Hm Hd Ht).
  set (w3 := Build_World (fs w2 ∖ {[path]}) (ext w2)).
  set (tail := try_except (gate_and_refine env (strip text)) (pipeline_failed py_str)).
  assert (Hco : chat_only tail).
  { apply chat_only_try_except; [apply chat_only_gate_and_refine|].
    intros e. apply chat_only_raise. }
  destruct (Hco w3) as [Hw Hc].
  assert (Hfin : fs (world_of (tail w3)) = fs w1 ∖ {[path]}).
  { rewrite Hw. simpl. rewrite Hfs. reflexivity. }
  rewrite world_of_mk, trace_of_mk.
  split; [exact Hin|]. split.
  { rewrite Hfin. apply not_elem_of_difference. right. apply elem_of_singleton.
    reflexivity. } split; [exact Hfin|].
  exists (trace_of (tail w3)). split; [reflexivity|]. split; [exact Hc|].
  intros Hg. unfold tail, try_except, gate_and_refine. rewrite Hg. reflexivity.
Qed.

Lemma audio_removed_after_transcription_witness :
  let o := process_youtube demo_str (demo_env true 0 (inr demo_talk) demo_answer)
             demo_request demo_world in
  let w1 : World nat := {| fs := {[demo_path]}; ext := 0%nat |} in
  demo_path ∈ fs w1
  /\ (demo_path ∉ fs (world_of o))
  /\ fs (world_of o) = fs w1 ∖ {[demo_path]}
  /\ (exists rest,
       trace_of o
       = [ (CallGettempdir, ReplyStr (lit "/tmp"));
           (CallUuid4, ReplyStr (lit "1b4e28ba-2fa1-41d2-883f-0016d3cca427"));
           (CallSubprocessRun (yt_dlp_command demo_path (lit "https://youtu.be/x")),
            ReplyExit (inr 0)) ]
         ++ [ (CallTranscribe demo_path, ReplyText (inr demo_talk)) ]
         ++ removal demo_path :: rest
       /\ forallb is_chat_call (calls rest) = true
       /\ (poor_input (strip demo_talk) = true -> rest = [])).
Proof.
  eapply (audio_removed_after_transcription demo_str
            (demo_env true 0 (inr demo_talk) demo_answer)
            _ demo_request demo_world demo_path
            {| fs := {[demo_path]}; ext := 0%nat |} _ demo_talk
            {| fs := {[demo_path]}; ext := 0%nat |}).
  - reflexivity.
  - vm_compute. reflexivity.
  - vm_compute. reflexivity.
Defined.

(** C10. When the download succeeds and the transcription raises, the
    handler answers with status 500 without ever calling [os.remove]: the
    error path cleans nothing, the file system is as the download left it,
    and the audio file is still there. *)
Theorem audio_left_when_transcription_fails {E} (py_str : Exn -> str) (env : Env E)
    m req w0 path w1 t1 e w2 t2 :
  whisper_model env = Some m ->
  download_youtube_audio env (url req) w0 = (inr path, w1, t1) ->
  transcribe m path w1 = (inl e, w2, t2) ->
  let o := process_youtube py_str env req w0 in
  result_of o = inl (HTTPException 500 (lit "YouTube pipeline failed: " ++ py_str e))
  /\ http_status (result_of o) = 500
  /\ filter is_remove_call (calls (trace_of o)) = []
  /\ fs (world_of o) = fs w1
  /\ (path ∈ fs w1 -> path ∈ fs (world_of o)).
Proof.
  intros Hm Hd Ht o. subst o.
  rewrite (process_youtube_transcribe_failed py_str env m req _ _ _ _ _ _ _ Hm Hd Ht).
  destruct (transcribe_inl _ _ _ _ _ _ Ht) as (Hfs & ->).
  destruct (download_calls env _ _ _ _ _ Hd) as (_ & _ & Hrm).
  unfold result_of, world_of, trace_of. cbn [fst snd].
  split; [reflexivity|]. split; [reflexivity|].
  split; [unfold calls in *; rewrite map_app, filter_app, Hrm; reflexivity|].
  split; [exact Hfs|]. rewrite Hfs. auto.
Qed.

Lemma audio_left_when_transcription_fails_witness :
  let boom := OtherException "RuntimeError" (lit "CUDA out of memory") in
  let o := process_youtube demo_str (demo_env true 0 (inl boom) demo_answer)
             demo_request demo_world in
  let w1 : World nat := {| fs := {[demo_path]}; ext := 0%nat |} in
  result_of o
  = inl (HTTPException 500 (lit "YouTube pipeline failed: " ++ demo_str boom))
  /\ http_status (result_of o) = 500
  /\ filter is_remove_call (calls (trace_of o)) = []
  /\ fs (world_of o) = fs w1
  /\ (demo_path ∈ fs w1 -> demo_path ∈ fs (world_of o)).
Proof.
  eapply (audio_left_when_transcription_fails demo_str
            (demo_env true 0
               (inl (OtherException "RuntimeError" (lit "CUDA out of memory")))
               demo_answer)
            _ demo_request demo_world demo_path
            {| fs := {[demo_path]}; ext := 0%nat |} _ _
            {| fs := {[demo_path]}; ext := 0%nat |}).
  - reflexivity.
  - vm_compute. reflexivity.
  - vm_compute. reflexivity.
Defined.

(** ** The object sent back *)

Lemma summary_pair_dom (s p : PyVal) :
  dom (<[ "summary" := s ]> ({[ "polished_summary" := p ]} : gmap string PyVal))
  = ({[ "summary"; "polished_summary" ]} : gset string).
Proof. rewrite dom_insert_L, dom_singleton_L. reflexivity. Qed.

Lemma summary_pair_values (s p : PyVal) (k : string) (v : PyVal) :
  (<[ "summary" := s ]> ({[ "polished_summary" := p ]} : gmap string PyVal)) !! k = Some v ->
  v = s \/ v = p.
Proof.
  intros H. apply lookup_insert_Some in H as [[_ <-] | [_ H]]; [auto|].
  apply lookup_singleton_Some in H as [_ <-]. auto.
Qed.

(** C7. On the normal path the object returned has exactly the two keys
    [summary] and [polished_summary], bound to the outputs of the
    summarization and of the polishing; the correction is called, but
    every value of the object is one of those two outputs, so the
    corrected text has no entry of its own.  On the degraded path the
    object has the single key [polished_summary], and no [summary]. *)
Theorem response_exposes_summary_pair {E} (py_str : Exn -> str) (env : Env E)
    m req w0 path w1 t1 text w2 t2 :
  whisper_model env = Some m ->
  download_youtube_audio env (url req) w0 = (inr path, w1, t1) ->
  transcribe m path w1 = (inr text, w2, t2) ->
  let o := process_youtube py_str env req w0 in
  (poor_input (strip text) = true ->
   exists d : gmap string PyVal,
     result_of o = inr d
     /\ dom d = ({[ "polished_summary" ]} : gset string)
     /\ d !! "summary" = None)
  /\ (forall c w4 tc s w5 ts p w6 tp,
        poor_input (strip text) = false ->
        correct_transcript env (PStr (strip text))
          (Build_World (fs w2 ∖ {[path]}) (ext w2)) = (inr c, w4, tc) ->
        summarize_text env c w4 = (inr s, w5, ts) ->
        polish_bullets env s w5 = (inr p, w6, tp) ->
        exists d : gmap string PyVal,
          result_of o = inr d
          /\ dom d = ({[ "summary"; "polished_summary" ]} : gset string)
          /\ d !! "summary" = Some s
          /\ d !! "polished_summary" = Some p
          /\ (forall k v, d !! k = Some v -> v = s \/ v = p)
          /\ In (CallChatCreate (refine_request Correction (PStr (strip text))))
                (calls (trace_of o))).
Proof.
  intros Hm Hd Ht o. split.
  - intros Hg. subst o.
    rewrite (process_youtube_degraded py_str env m req _ _ _ _ _ _ _ Hm Hd Ht Hg).
    rewrite result_of_mk. eexists. split; [reflexivity|].
    split; [apply dom_singleton_L | reflexivity].
  - intros c w4 tc s w5 ts p w6 tp Hg Hc Hs Hp. subst o.
    rewrite (process_youtube_normal py_str env m req _ _ _ _ _ _ _ _ _ _ _ _ _ _ _ _
               Hm Hd Ht Hg Hc Hs Hp).
    rewrite result_of_mk, trace_of_mk. eexists. split; [reflexivity|].
    split; [apply summary_pair_dom|].
    split; [reflexivity|]. split; [reflexivity|].
    split; [apply summary_pair_values|].
    destruct (stage_trace env Correction _ _ _ _ _ Hc) as (_ & Hcc).
    unfold calls in *. rewrite !map_app. cbn [List.map]. rewrite !map_app, Hcc.
    apply in_or_app. right. apply in_or_app. right. right. left. reflexivity.
Qed.

Lemma response_exposes_summary_pair_witness :
  (exists d : gmap string PyVal,
     result_of (process_youtube demo_str
                  (demo_env true 0 (inr (lit " hi ")) demo_answer)
                  demo_request demo_world) = inr d
     /\ dom d = ({[ "polished_summary" ]} : gset string)
     /\ d !! "summary" = None)
  /\ (exists d : gmap string PyVal,
        let o := process_youtube demo_str
                   (demo_env true 0 (inr demo_talk) demo_answer)
                   demo_request demo_world in
        result_of o = inr d
        /\ dom d = ({[ "summary"; "polished_summary" ]} : gset string)
        /\ d !! "summary" = Some (PStr (lit "**Notes**"))
        /\ d !! "polished_summary" = Some (PStr (lit "**Short notes**"))
        /\ (forall k v, d !! k = Some v ->
                        v = PStr (lit "**Notes**") \/ v = PStr (lit "**Short notes**"))
        /\ In (CallChatCreate (refine_request Correction (PStr (strip demo_talk))))
              (calls (trace_of o))).
Proof.
  split.
  - refine (proj1 (response_exposes_summary_pair demo_str
              (demo_env true 0 (inr (lit " hi ")) demo_answer)
              _ demo_request demo_world demo_path
              {| fs := {[demo_path]}; ext := 0%nat |} _ (lit " hi ")
              {| fs := {[demo_path]}; ext := 0%nat |} _ _ _ _) _).
    + reflexivity.
    + vm_compute. reflexivity.
    + vm_compute. reflexivity.
    + vm_compute. reflexivity.
  - refine (proj2 (response_exposes_summary_pair demo_str
              (demo_env true 0 (inr demo_talk) demo_answer)
              _ demo_request demo_world demo_path
              {| fs := {[demo_path]}; ext := 0%nat |} _ demo_talk
              {| fs := {[demo_path]}; ext := 0%nat |} _ _ _ _)
              (PStr (lit "corrected text")) {| fs := ∅; ext := 1%nat |} _
              (PStr (lit "**Notes**")) {| fs := ∅; ext := 2%nat |} _
              (PStr (lit "**Short notes**")) {| fs := ∅; ext := 3%nat |} _
              _ _ _ _).
    + reflexivity.
    + vm_compute. reflexivity.
    + vm_compute. reflexivity.
    + vm_compute. reflexivity.
    + vm_compute. reflexivity.
    + vm_compute. reflexivity.
    + vm_compute. reflexivity.
Defined.

(** C9. Each of the three refinement functions makes exactly one chat
    completion request, with the same cap of 1000 on the output length,
    the system instruction of its role, and a user prompt built from the
    template of its role and the input text; it returns the content of the
    first choice of the completion (and fails as the client fails, or with
    [IndexError] when there is no choice). *)
Theorem refinement_stage_contract {E} (env : Env E) (r : RefinementRole)
    (text : PyVal) (w : World E) :
  let req :=
    {| model := lit "deepseek/deepseek-r1-distill-qwen-32b:free";
       messages :=
         [ {| role := lit "system"; content := PStr (system_instruction r) |};
           {| role := lit "user"; content := PStr (user_prompt r text) |} ];
       max_tokens := 1000 |} in
  let reply := (chat_completions_create (client env) req (ext w)).1 in
  trace_of (stage env r text w) = [(CallChatCreate req, ReplyChat reply)]
  /\ match reply with
     | inl e => result_of (stage env r text w) = inl e
     | inr response =>
         match choices response with
         | [] => result_of (stage env r text w) = inl IndexError
         | c :: _ => result_of (stage env r text w) = inr (content (message c))
         end
     end.
Proof.
  intros req reply. rewrite stage_refine.
  destruct (refine_run env r text w) as [_ Htr]. split; [exact Htr|].
  change req with (refine_request r text) in *.
  destruct reply as [e|response] eqn:Hr; subst reply.
  - unfold refine, bind. rewrite chat_create_run, Hr. reflexivity.
  - destruct (choices response) as [|c rest] eqn:Hc.
    + unfold refine, bind. rewrite chat_create_run, Hr.
      unfold first_choice_content. rewrite Hc. reflexivity.
    + apply (refine_result env r text w response c rest Hr Hc).
Qed.

(** ** One error for every failure inside the [try] block *)

Example demo_str_called_process_error :
  demo_str (CalledProcessError 1 [lit "yt-dlp"; lit "-x"])
  = lit "Command '['yt-dlp', '-x']' returned non-zero exit status 1.".
Proof. vm_compute. reflexivity. Qed.

(** C5, as it is worded, fails.  A run in which the download tool exits with 1, and one in which the
    download succeeds and the transcription raises an error with the same
    text: the two responses are the same generic pipeline failure. *)
Lemma fetch_failure_kind_counterexample :
  let cmd := yt_dlp_command demo_path (url demo_request) in
  let env := demo_env true 1 (inr demo_talk) demo_answer in
  let later := demo_env true 0
                 (inl (RuntimeError (demo_str (CalledProcessError 1 cmd)))) demo_answer in
  let o := process_youtube demo_str env demo_request demo_world in
  result_of (download_youtube_audio env (url demo_request) demo_world)
  = inl (CalledProcessError 1 cmd)
  /\ generic_pipeline_failure (result_of o) = true
  /\ result_of (download_youtube_audio later (url demo_request) demo_world)
     = inr demo_path
  /\ result_of (process_youtube demo_str later demo_request demo_world) = result_of o
  /\ ~ fetch_failure_has_own_kind demo_str.
Proof.
  intros cmd env later o.
  assert (Hd : download_youtube_audio env (url demo_request) demo_world
               = (inl (CalledProcessError 1 cmd), demo_world,
                  [ (CallGettempdir, ReplyStr (lit "/tmp"));
                    (CallUuid4, ReplyStr (lit "1b4e28ba-2fa1-41d2-883f-0016d3cca427"));
                    (CallSubprocessRun cmd, ReplyExit (inr 1)) ])).
  { vm_compute. reflexivity. }
  assert (Hg : generic_pipeline_failure (result_of o) = true).
  { vm_compute. reflexivity. }
  split; [rewrite Hd; reflexivity|]. split; [exact Hg|].
  split; [vm_compute; reflexivity|]. split; [vm_compute; reflexivity|].
  intros Hclaim.
  specialize (Hclaim nat env _ demo_request demo_world _ _ _ eq_refl Hd).
  fold o in Hclaim. rewrite Hg in Hclaim. discriminate Hclaim.
Qed.

(** C5, amended. A failure of the download has no error kind of its own:
    it is reported as the generic pipeline failure, with status 500 and the
    detail [YouTube pipeline failed: ] followed by the text of the
    exception, and a failure of the transcription with the same exception
    gives the very same response. *)
Theorem fetch_failure_is_generic_pipeline_failure {E} (py_str : Exn -> str)
    (env : Env E) m req w0 e w1 t1 :
  whisper_model env = Some m ->
  download_youtube_audio env (url req) w0 = (inl e, w1, t1) ->
  let o := process_youtube py_str env req w0 in
  result_of o = inl (HTTPException 500 (lit "YouTube pipeline failed: " ++ py_str e))
  /\ http_status (result_of o) = 500
  /\ generic_pipeline_failure (result_of o) = true
  /\ (forall E' (env' : Env E') m' req' w0' path w1' t1' w2' t2',
        whisper_model env' = Some m' ->
        download_youtube_audio env' (url req') w0' = (inr path, w1', t1') ->
        transcribe m' path w1' = (inl e, w2', t2') ->
        result_of (process_youtube py_str env' req' w0') = result_of o).
Proof.
  intros Hm Hd o. subst o.
  rewrite (process_youtube_download_failed py_str env m req _ _ _ _ Hm Hd).
  rewrite result_of_mk.
  split; [reflexivity|]. split; [reflexivity|].
  split.
  { unfold generic_pipeline_failure, mentions_pipeline_failure.
    rewrite startswith_app. reflexivity. }
  intros E' env' m' req' w0' path w1' t1' w2' t2' Hm' Hd' Ht'.
  rewrite (process_youtube_transcribe_failed py_str env' m' req' _ _ _ _ _ _ _ Hm' Hd' Ht').
  reflexivity.
Qed.

Lemma fetch_failure_is_generic_pipeline_failure_witness :
  let cmd := yt_dlp_command demo_path (lit "https://youtu.be/x") in
  let o := process_youtube demo_str (demo_env true 1 (inr demo_talk) demo_answer)
             demo_request demo_world in
  result_of o
  = inl (HTTPException 500
           (lit "YouTube pipeline failed: " ++ demo_str (CalledProcessError 1 cmd)))
  /\ http_status (result_of o) = 500
  /\ generic_pipeline_failure (result_of o) = true
  /\ (forall E' (env' : Env E') m' req' w0' path w1' t1' w2' t2',
        whisper_model env' = Some m' ->
        download_youtube_audio env' (url req') w0' = (inr path, w1', t1') ->
        transcribe m' path w1' = (inl (CalledProcessError 1 cmd), w2', t2') ->
        result_of (process_youtube demo_str env' req' w0') = result_of o).
Proof.
  intros cmd.
  refine (fetch_failure_is_generic_pipeline_failure demo_str
            (demo_env true 1 (inr demo_talk) demo_answer)
            _ demo_request demo_world (CalledProcessError 1 cmd) demo_world _ _ _).
  - reflexivity.
  - vm_compute. reflexivity.
Defined.

(** ** Two runs with the same replies *)

Section Agreement.
Context {E1 E2 : Type}.

Lemma agree_ret {A} (a : A) : agree (ret (E:=E1) a) (ret (E:=E2) a).
Proof. intros w1 w2 r1 r2 _. split; reflexivity. Qed.

Lemma agree_raise {A} (e : Exn) : agree (raise (E:=E1) (A:=A) e) (raise (E:=E2) e).
Proof. intros w1 w2 r1 r2 _. split; reflexivity. Qed.

Lemma agree_bind {A B} (c1 : M E1 A) (c2 : M E2 A) (k1 : A -> M E1 B) (k2 : A -> M E2 B) :
  agree c1 c2 -> (forall a, agree (k1 a) (k2 a)) -> agree (bind c1 k1) (bind c2 k2).
Proof.
  intros Hc Hk w1 w2 r1 r2. specialize (Hc w1 w2). unfold bind.
  destruct (c1 w1) as [[x1 w1'] t1], (c2 w2) as [[x2 w2'] t2].
  unfold result_of, trace_of, replies in *. cbn [fst snd] in Hc.
  destruct x1 as [e1|a1], x2 as [e2|a2].
  - cbn [fst snd]. intros H. destruct (Hc _ _ H) as [[= ->] ->]. auto.
  - destruct (k2 a2 w2') as [[y2 w2''] u2]. cbn [fst snd].
    rewrite map_app, <- app_assoc. intros H.
    destruct (Hc _ _ H) as [Hr _]. discriminate Hr.
  - destruct (k1 a1 w1') as [[y1 w1''] u1]. cbn [fst snd].
    rewrite map_app, <- app_assoc. intros H.
    destruct (Hc _ _ H) as [Hr _]. discriminate Hr.
  - specialize (Hk a1 w1' w2').
    destruct (k1 a1 w1') as [[y1 w1''] u1].
    intros H.
    assert (H' : List.map snd t1 ++ (List.map snd u1 ++ r1)
                 = List.map snd t2 ++ (List.map snd (trace_of (k2 a2 w2')) ++ r2)).
    { revert H. destruct (k2 a2 w2') as [[y2 w2''] u2]. cbn [fst snd]. unfold trace_of.
      cbn [fst snd]. rewrite !map_app, <- !app_assoc. auto. }
    destruct (Hc _ _ H') as [[= ->] ->].
    apply app_inv_head in H'.
    unfold result_of, trace_of, replies in Hk. cbn [fst snd] in Hk.
    destruct (Hk _ _ H') as [Hr Ht].
    destruct (k2 a2 w2') as [[y2 w2''] u2]. cbn [fst snd] in *. unfold trace_of in Ht.
    cbn [fst snd] in Ht. subst. auto.
Qed.

Lemma agree_try_except {A} (c1 : M E1 A) (c2 : M E2 A) (h1 : Exn -> M E1 A)
    (h2 : Exn -> M E2 A) :
  agree c1 c2 -> (forall e, agree (h1 e) (h2 e)) ->
  agree (try_except c1 h1) (try_except c2 h2).
Proof.
  intros Hc Hh w1 w2 r1 r2. specialize (Hc w1 w2). unfold try_except.
  destruct (c1 w1) as [[x1 w1'] t1], (c2 w2) as [[x2 w2'] t2].
  unfold result_of, trace_of, replies in *. cbn [fst snd] in Hc.
  destruct x1 as [e1|a1], x2 as [e2|a2].
  - specialize (Hh e1 w1' w2').
    destruct (h1 e1 w1') as [[y1 w1''] u1].
    intros H.
    assert (H' : List.map snd t1 ++ (List.map snd u1 ++ r1)
                 = List.map snd t2 ++ (List.map snd (trace_of (h2 e2 w2')) ++ r2)).
    { revert H. destruct (h2 e2 w2') as [[y2 w2''] u2]. cbn [fst snd]. unfold trace_of.
      cbn [fst snd]. rewrite !map_app, <- !app_assoc. auto. }
    destruct (Hc _ _ H') as [[= ->] ->].
    apply app_inv_head in H'.
    unfold result_of, trace_of, replies in Hh. cbn [fst snd] in Hh.
    destruct (Hh _ _ H') as [Hr Ht].
    destruct (h2 e2 w2') as [[y2 w2''] u2]. cbn [fst snd] in *. unfold trace_of in Ht.
    cbn [fst snd] in Ht. subst. auto.
  - destruct (h1 e1 w1') as [[y1 w1''] u1]. cbn [fst snd].
    rewrite map_app, <- app_assoc. intros H.
    destruct (Hc _ _ H) as [Hr _]. discriminate Hr.
  - destruct (h2 e2 w2') as [[y2 w2''] u2]. cbn [fst snd].
    rewrite map_app, <- app_assoc. intros H.
    destruct (Hc _ _ H) as [Hr _]. discriminate Hr.
  - cbn [fst snd]. intros H. destruct (Hc _ _ H) as [-> ->]. auto.
Qed.

Variable env1 : Env E1.
Variable env2 : Env E2.

(** Each library call returns what its reply says. *)

Lemma agree_gettempdir : agree (gettempdir env1) (gettempdir env2).
Proof.
  intros w1 w2 r1 r2. unfold gettempdir.
  destruct (tempfile_gettempdir env1 (ext w1)) as [d1 e1'].
  destruct (tempfile_gettempdir env2 (ext w2)) as [d2 e2'].
  unfold result_of, trace_of, replies. cbn. intros [= -> _]. auto.
Qed.

Lemma agree_uuid4 : agree (uuid4 env1) (uuid4 env2).
Proof.
  intros w1 w2 r1 r2. unfold uuid4.
  destruct (uuid_uuid4 env1 (ext w1)) as [d1 e1'].
  destruct (uuid_uuid4 env2 (ext w2)) as [d2 e2'].
  unfold result_of, trace_of, replies. cbn. intros [= -> _]. auto.
Qed.

Lemma agree_subprocess_run cmd check :
  agree (subprocess_run env1 cmd check) (subprocess_run env2 cmd check).
Proof.
  intros w1 w2 r1 r2. unfold subprocess_run.
  destruct (spawn env1 cmd (fs w1) (ext w1)) as [[x1 f1] e1'].
  destruct (spawn env2 cmd (fs w2) (ext w2)) as [[x2 f2] e2'].
  assert (Ht : forall (x : Exn + Z) (w : World E1),
             trace_of (match x with
                       | inl e => (inl e, w, [(CallSubprocessRun cmd, ReplyExit x)])
                       | inr rc =>
                           if check && negb (rc =? 0)
                           then (inl (CalledProcessError rc cmd), w,
                                 [(CallSubprocessRun cmd, ReplyExit x)])
                           else (inr rc, w, [(CallSubprocessRun cmd, ReplyExit x)])
                       end : (Exn + Z) * World E1 * list Event)
             = [(CallSubprocessRun cmd, ReplyExit x)]).
  { intros [e|rc] w; [reflexivity|]. destruct (check && negb (rc =? 0)); reflexivity. }
  assert (Ht' : forall (x : Exn + Z) (w : World E2),
             trace_of (match x with
                       | inl e => (inl e, w, [(CallSubprocessRun cmd, ReplyExit x)])
                       | inr rc =>
                           if check && negb (rc =? 0)
                           then (inl (CalledProcessError rc cmd), w,
                                 [(CallSubprocessRun cmd, ReplyExit x)])
                           else (inr rc, w, [(CallSubprocessRun cmd, ReplyExit x)])
                       end : (Exn + Z) * World E2 * list Event)
             = [(CallSubprocessRun cmd, ReplyExit x)]).
  { intros [e|rc] w; [reflexivity|]. destruct (check && negb (rc =? 0)); reflexivity. }
  cbv zeta. rewrite Ht, Ht'. unfold replies. cbn [List.map snd app].
  intros [= -> _]. split; [|reflexivity].
  destruct x2 as [e|rc]; [reflexivity|].
  destruct (check && negb (rc =? 0)); reflexivity.
Qed.

Lemma agree_transcribe (m1 : WhisperModel E1) (m2 : WhisperModel E2) path :
  agree (transcribe m1 path) (transcribe m2 path).
Proof.
  intros w1 w2 r1 r2. unfold transcribe.
  destruct (bool_decide (path ∈ fs w1)), (bool_decide (path ∈ fs w2));
    try destruct (decode m1 path (ext w1)) as [x1 e1'];
    try destruct (decode m2 path (ext w2)) as [x2 e2'];
    unfold result_of, trace_of, replies; cbn; intros H;
    injection H as H; try subst; auto.
Qed.

Lemma agree_os_remove path : agree (os_remove (E:=E1) path) (os_remove (E:=E2) path).
Proof.
  intros w1 w2 r1 r2. unfold os_remove.
  destruct (bool_decide (path ∈ fs w1)), (bool_decide (path ∈ fs w2));
    unfold result_of, trace_of, replies; cbn; intros [= ]; auto.
Qed.

Lemma agree_chat_create req : agree (chat_create env1 req) (chat_create env2 req).
Proof.
  intros w1 w2 r1 r2. rewrite !chat_create_run.
  unfold result_of, trace_of, replies. cbn. intros [= -> _]. auto.
Qed.

Lemma agree_first_choice_content response :
  agree (first_choice_content (E:=E1) response) (first_choice_content (E:=E2) response).
Proof.
  unfold first_choice_content. destruct (choices response);
    [apply agree_raise | apply agree_ret].
Qed.

Lemma agree_stage r text : agree (stage env1 r text) (stage env2 r text).
Proof.
  rewrite !stage_refine. unfold refine.
  apply agree_bind; [apply agree_chat_create | apply agree_first_choice_content].
Qed.

Lemma agree_download url :
  agree (download_youtube_audio env1 url) (download_youtube_audio env2 url).
Proof.
  unfold download_youtube_audio.
  apply agree_bind; [apply agree_gettempdir|]. intros d.
  apply agree_bind; [apply agree_uuid4|]. intros u. cbv zeta.
  apply agree_bind; [apply agree_subprocess_run|]. intros _.
  apply agree_ret.
Qed.

Lemma agree_gate_and_refine raw :
  agree (gate_and_refine env1 raw) (gate_and_refine env2 raw).
Proof.
  unfold gate_and_refine. destruct (poor_input raw); [apply agree_ret|].
  apply agree_bind; [apply (agree_stage Correction)|]. intros c.
  apply agree_bind; [apply (agree_stage Summarization)|]. intros s.
  apply agree_bind; [apply (agree_stage Polishing)|]. intros p.
  apply agree_ret.
Qed.

Lemma agree_determined {A} (c1 : M E1 A) (c2 : M E2 A) : agree c1 c2 -> determined c1 c2.
Proof.
  intros H w1 w2 Hr. destruct (H w1 w2 [] []) as [Hres Htr].
  - rewrite !app_nil_r. exact Hr.
  - split; [exact Hres|]. rewrite Htr. reflexivity.
Qed.

End Agreement.

Section Determinism.
Context {E1 E2 : Type}.
Variable py_str : Exn -> str.
Variable env1 : Env E1.
Variable env2 : Env E2.

Lemma agree_process_youtube_loaded m1 m2 req :
  whisper_model env1 = Some m1 ->
  whisper_model env2 = Some m2 ->
  agree (process_youtube py_str env1 req) (process_youtube py_str env2 req).
Proof.
  intros H1 H2. unfold process_youtube. rewrite H1, H2.
  apply agree_try_except; [|intros e; apply agree_raise].
  apply agree_bind; [apply agree_download|]. intros path.
  apply agree_bind; [apply agree_transcribe|]. intros text. cbv zeta.
  apply agree_bind; [apply agree_os_remove|]. intros _.
  apply (agree_gate_and_refine env1 env2 (strip text)).
Qed.

End Determinism.

(** A run with a loaded model starts by asking for the temporary directory. *)
Lemma process_youtube_loaded_calls {E} (py_str : Exn -> str) (env : Env E) m req w :
  whisper_model env = Some m ->
  exists ev rest, trace_of (process_youtube py_str env req w) = ev :: rest.
Proof.
  intros Hm. unfold process_youtube. rewrite Hm.
  destruct (download_youtube_audio env (url req) w) as [[[e|path] w1] t1] eqn:Hd;
    destruct (download_trace env _ _ _ _ _ Hd) as (d & u & cmd & x & Ht); subst t1.
  - rewrite (try_except_bind_inl _ _ _ _ _ _ _ Hd). rewrite trace_of_mk.
    cbn [app]. eauto.
  - rewrite (try_except_bind_inr _ _ _ _ _ _ _ Hd). rewrite trace_of_mk.
    cbn [app]. eauto.
Qed.



(** * Further properties of the code *)

(** ** Trimming and counting words *)

Lemma split_from_trailing_space (s w : str) (c : N) :
  isspace c = true -> split_from w (s ++ [c]) = split_from w s.
Proof.
  intros Hc. revert w. induction s as [|a s IH]; intros w.
  - simpl. rewrite Hc. destruct w; reflexivity.
  - simpl. destruct (isspace a); [destruct w|]; rewrite IH; reflexivity.
Qed.

Lemma split_lstrip (s : str) : split (lstrip s) = split s.
Proof.
  unfold split. induction s as [|a s IH]; [reflexivity|].
  simpl. destruct (isspace a) eqn:Ha; [exact IH|].
  simpl. rewrite Ha. reflexivity.
Qed.

Lemma split_rev_lstrip (l : str) : split (rev (lstrip l)) = split (rev l).
Proof.
  induction l as [|a l IH]; [reflexivity|].
  simpl. destruct (isspace a) eqn:Ha; [|reflexivity].
  rewrite IH. unfold split. rewrite split_from_trailing_space; auto.
Qed.

Lemma split_strip (s : str) : split (strip s) = split s.
Proof.
  unfold strip, rstrip. rewrite split_rev_lstrip, rev_involutive. apply split_lstrip.
Qed.

(** X1. The gate of the handler looks at the trimmed transcript, but its
    verdict is that of the plain word count of the transcript as the model
    gave it: trimming changes no word, and the separate test for an empty
    text never decides anything. *)
Theorem gate_counts_words_of_untrimmed_text (text : str) :
  poor_input (strip text) = true <-> (length (split text) < 5)%nat.
Proof. rewrite poor_input_words, split_strip. reflexivity. Qed.

(** ** Every way the refinement part can end *)

Section Tail.
Context {E : Type}.
Variable py_str : Exn -> str.
Variable env : Env E.

Lemma try_except_pipeline_failed {A} (c : M E A) (w : World E) :
  try_except c (pipeline_failed py_str) w
  = (match result_of (c w) with
     | inl e => inl (HTTPException 500 (lit "YouTube pipeline failed: " ++ py_str e))
     | inr a => inr a
     end, world_of (c w), trace_of (c w)).
Proof.
  unfold try_except, pipeline_failed, raise.
  destruct (c w) as [[[e|a] w1] t1]; unfold result_of, world_of, trace_of; cbn [fst snd].
  - rewrite app_nil_r. reflexivity.
  - reflexivity.
Qed.

Lemma stage_calls r text (w : World E) :
  calls (trace_of (stage env r text w)) = [CallChatCreate (refine_request r text)].
Proof.
  rewrite stage_refine. destruct (refine_run env r text w) as [_ ->]. reflexivity.
Qed.

Lemma gate_and_refine_cases raw (w : World E) :
  let o := gate_and_refine env raw w in
  let C := CallChatCreate (refine_request Correction (PStr raw)) in
  (poor_input raw = true
   /\ result_of o = inr {[ "polished_summary" := PStr degraded_message ]}
   /\ calls (trace_of o) = [])
  \/ (poor_input raw = false
      /\ ((exists e, result_of o = inl e /\ calls (trace_of o) = [C])
          \/ (exists c e,
                result_of o = inl e
                /\ calls (trace_of o)
                   = [C; CallChatCreate (refine_request Summarization c)])
          \/ (exists c s e,
                result_of o = inl e
                /\ calls (trace_of o)
                   = [C; CallChatCreate (refine_request Summarization c);
                      CallChatCreate (refine_request Polishing s)])
          \/ (exists c s p,
                result_of o = inr (<[ "summary" := s ]> {[ "polished_summary" := p ]})
                /\ calls (trace_of o)
                   = [C; CallChatCreate (refine_request Summarization c);
                      CallChatCreate (refine_request Polishing s)]))).
Proof.
  intros o C. subst o. unfold gate_and_refine.
  destruct (poor_input raw) eqn:Hg; [left; auto|]. right. split; [reflexivity|].
  pose proof (stage_calls Correction (PStr raw) w) as Hcc. simpl stage in Hcc.
  destruct (correct_transcript env (PStr raw) w) as [[[e|c] w4] tc] eqn:Hc.
  { left. exists e. rewrite (bind_inl _ _ _ _ _ _ Hc). auto. }
  rewrite (bind_inr _ _ _ _ _ _ Hc). right.
  pose proof (stage_calls Summarization c w4) as Hsc. simpl stage in Hsc.
  destruct (summarize_text env c w4) as [[[e|s] w5] ts] eqn:Hs.
  { left. exists c, e. rewrite (bind_inl _ _ _ _ _ _ Hs).
    rewrite result_of_mk, trace_of_mk. unfold trace_of in *. cbn [fst snd] in *.
    unfold calls in *. rewrite map_app, Hcc, Hsc. auto. }
  rewrite (bind_inr _ _ _ _ _ _ Hs). right.
  pose proof (stage_calls Polishing s w5) as Hpc. simpl stage in Hpc.
  destruct (polish_bullets env s w5) as [[[e|p] w6] tp] eqn:Hp.
  { left. exists c, s, e. rewrite (bind_inl _ _ _ _ _ _ Hp).
    rewrite result_of_mk, !trace_of_mk. unfold trace_of in *. cbn [fst snd] in *.
    unfold calls in *. rewrite !map_app, Hcc, Hsc, Hpc. auto. }
  right. exists c, s, p. rewrite (bind_inr _ _ _ _ _ _ Hp).
  unfold ret. rewrite !result_of_mk, !trace_of_mk.
  unfold trace_of in *. cbn [fst snd] in *.
  unfold calls in *. rewrite !map_app, Hcc, Hsc, Hpc. auto.
Qed.

End Tail.

(** ** Every way a run with a loaded model can go *)

Lemma process_youtube_loaded_cases {E} (py_str : Exn -> str) (env : Env E) m req w0 :
  whisper_model env = Some m ->
  let d := (tempfile_gettempdir env (ext w0)).1 in
  let e1 := (tempfile_gettempdir env (ext w0)).2 in
  let u := (uuid_uuid4 env e1).1 in
  let e2 := (uuid_uuid4 env e1).2 in
  let temp_path := os_path_join d (u ++ lit ".mp3") in
  let cmd := yt_dlp_command temp_path (url req) in
  let files' := (spawn env cmd (fs w0) e2).1.2 in
  let o := process_youtube py_str env req w0 in
  let start := [CallGettempdir; CallUuid4; CallSubprocessRun cmd] in
  (exists e,
     result_of o = inl (HTTPException 500 (lit "YouTube pipeline failed: " ++ py_str e))
     /\ fs (world_of o) = files'
     /\ calls (trace_of o) = start)
  \/ (exists e,
        result_of o = inl (HTTPException 500 (lit "YouTube pipeline failed: " ++ py_str e))
        /\ fs (world_of o) = files'
        /\ calls (trace_of o) = start ++ [CallTranscribe temp_path])
  \/ (exists text w3,
        temp_path ∈ files'
        /\ fs w3 = files' ∖ {[temp_path]}
        /\ fs (world_of o) = files' ∖ {[temp_path]}
        /\ result_of o
           = result_of (try_except (gate_and_refine env (strip text))
                          (pipeline_failed py_str) w3)
        /\ calls (trace_of o)
           = start ++ [CallTranscribe temp_path; CallOsRemove temp_path]
             ++ calls (trace_of (gate_and_refine env (strip text) w3))).
Proof.
  intros Hm d e1 u e2 temp_path cmd files' o start.
  pose proof (download_run env (url req) w0) as Hd. cbv zeta in Hd.
  fold d e1 u e2 temp_path cmd in Hd. fold files' in Hd.
  set (x := spawn env cmd (fs w0) e2) in *.
  set (w1 := Build_World files' x.2) in *.
  destruct (x.1.1) as [e|rc] eqn:Hx.
  { left. exists e. subst o.
    rewrite (process_youtube_download_failed py_str env m req _ _ _ _ Hm Hd).
    rewrite result_of_mk, world_of_mk, trace_of_mk. auto. }
  destruct (rc =? 0) eqn:Hrc; cbn [negb] in Hd.
  2:{ left. exists (CalledProcessError rc cmd). subst o.
      rewrite (process_youtube_download_failed py_str env m req _ _ _ _ Hm Hd).
      rewrite result_of_mk, world_of_mk, trace_of_mk. auto. }
  right.
  destruct (transcribe m temp_path w1) as [[[e|text] w2] t2] eqn:Ht.
  { left. exists e. subst o.
    rewrite (process_youtube_transcribe_failed py_str env m req _ _ _ _ _ _ _ Hm Hd Ht).
    destruct (transcribe_inl _ _ _ _ _ _ Ht) as (Hfs & ->).
    rewrite result_of_mk, world_of_mk, trace_of_mk. auto. }
  right. exists text, (Build_World (fs w2 ∖ {[temp_path]}) (ext w2)).
  destruct (transcribe_inr _ _ _ _ _ _ Ht) as (Hin & Hfs & ->).
  subst o.
  rewrite (process_youtube_transcribed py_str env m req _ _ _ _ _ _ _ Hm Hd Ht).
  rewrite result_of_mk, world_of_mk, trace_of_mk.
  rewrite try_except_pipeline_failed. rewrite result_of_mk, world_of_mk, trace_of_mk.
  destruct (chat_only_gate_and_refine env (strip text)
              (Build_World (fs w2 ∖ {[temp_path]}) (ext w2))) as [Hw _].
  rewrite Hw. cbn [fs]. rewrite Hfs. cbn [fs w1].
  split; [exact Hin|]. split; [reflexivity|]. split; [reflexivity|].
  split; [reflexivity|].
  unfold calls. rewrite !map_app. reflexivity.
Qed.


(** X13. The calls of a run are always a beginning of one fixed sequence:
    temporary directory, identifier, download tool, transcription,
    removal, then three chat completions.  A run may stop early, but it
    never skips a step, repeats one, or takes two in another order. *)
Theorem calls_follow_fixed_order {E} (py_str : Exn -> str) (env : Env E) req w :
  List.map kind_of (calls (trace_of (process_youtube py_str env req w)))
    `prefix_of` full_run.
Proof.
  destruct (whisper_model env) as [m|] eqn:Hm.
  2:{ rewrite (process_youtube_unloaded py_str env req w Hm). apply prefix_nil. }
  destruct (process_youtube_loaded_cases py_str env m req w Hm)
    as [(e & _ & _ & ->) | [(e & _ & _ & ->) | (text & w3 & _ & _ & _ & _ & ->)]].
  - eexists. reflexivity.
  - eexists. reflexivity.
  - destruct (gate_and_refine_cases env (strip text) w3)
      as [(_ & _ & ->) | (_ & [(e & _ & ->) | [(c & e & _ & ->)
          | [(c & s & e & _ & ->) | (c & s & p & _ & ->)]]])];
      eexists; reflexivity.
Qed.

(** X12. A request costs at most three chat completions, and each of them
    is one of the three refinement requests: the same model, the cap of
    1000 on the output, and two messages, a system one and a user one. *)
Theorem chat_requests_are_bounded {E} (py_str : Exn -> str) (env : Env E) req w :
  let cs := calls (trace_of (process_youtube py_str env req w)) in
  (length (filter is_chat_call cs) <= 3)%nat
  /\ (forall rq, In (CallChatCreate rq) cs ->
        model rq = lit "deepseek/deepseek-r1-distill-qwen-32b:free"
        /\ max_tokens rq = 1000
        /\ length (messages rq) = 2%nat
        /\ exists r text, rq = refine_request r text).
Proof.
  intros cs. subst cs.
  assert (Hreq : forall r text rq, rq = refine_request r text ->
            model rq = lit "deepseek/deepseek-r1-distill-qwen-32b:free"
            /\ max_tokens rq = 1000
            /\ length (messages rq) = 2%nat
            /\ exists r text, rq = refine_request r text).
  { intros r text rq ->. repeat split. eauto. }
  destruct (whisper_model env) as [m|] eqn:Hm.
  2:{ rewrite (process_youtube_unloaded py_str env req w Hm).
      split; [simpl; lia | intros rq []]. }
  destruct (process_youtube_loaded_cases py_str env m req w Hm)
    as [(e & _ & _ & ->) | [(e & _ & _ & ->) | (text & w3 & _ & _ & _ & _ & ->)]].
  - split; [simpl; lia|]. intros rq H. simpl in H. intuition discriminate.
  - split; [simpl; lia|]. intros rq H. simpl in H. intuition discriminate.
  - destruct (gate_and_refine_cases env (strip text) w3)
      as [(_ & _ & ->) | (_ & [(e & _ & ->) | [(c & e & _ & ->)
          | [(c & s & e & _ & ->) | (c & s & p & _ & ->)]]])];
      (split; [simpl; lia|]); intros rq H; simpl in H;
      repeat (destruct H as [H|H]; [try discriminate H|]); try contradiction;
      injection H as <-; eapply Hreq; reflexivity.
Qed.

(** X3. Whatever object the handler returns, it is the degraded message
    under [polished_summary] or the pair of [summary] and
    [polished_summary]: a success always has a [polished_summary] and never
    a [detail]. *)
Theorem every_object_carries_polished_summary {E} (py_str : Exn -> str) (env : Env E)
    req w (d : gmap string PyVal) :
  result_of (process_youtube py_str env req w) = inr d ->
  (d = {[ "polished_summary" := PStr degraded_message ]}
   \/ exists s p, d = <[ "summary" := s ]> {[ "polished_summary" := p ]})
  /\ is_Some (d !! "polished_summary")
  /\ d !! "detail" = None.
Proof.
  intros Hr.
  assert (Hd : d = {[ "polished_summary" := PStr degraded_message ]}
               \/ exists s p, d = <[ "summary" := s ]> {[ "polished_summary" := p ]}).
  { destruct (whisper_model env) as [m|] eqn:Hm.
    2:{ rewrite (process_youtube_unloaded py_str env req w Hm) in Hr. discriminate Hr. }
    destruct (process_youtube_loaded_cases py_str env m req w Hm)
      as [(e & He & _) | [(e & He & _) | (text & w3 & _ & _ & _ & He & _)]];
      rewrite He in Hr; try discriminate Hr.
    rewrite try_except_pipeline_failed, result_of_mk in Hr.
    destruct (gate_and_refine_cases env (strip text) w3)
      as [(_ & Hg & _) | (_ & [(e & Hg & _) | [(c & e & Hg & _)
          | [(c & s & e & Hg & _) | (c & s & p & Hg & _)]]])];
      rewrite Hg in Hr; try discriminate Hr; injection Hr as <-; eauto. }
  split; [exact Hd|].
  destruct Hd as [-> | (s & p & ->)]; split; try reflexivity; eexists; reflexivity.
Qed.

Lemma every_object_carries_polished_summary_witness :
  let d : gmap string PyVal :=
    <[ "summary" := PStr (lit "**Notes**") ]>
      {[ "polished_summary" := PStr (lit "**Short notes**") ]} in
  (d = {[ "polished_summary" := PStr degraded_message ]}
   \/ exists s p, d = <[ "summary" := s ]> {[ "polished_summary" := p ]})
  /\ is_Some (d !! "polished_summary")
  /\ d !! "detail" = None.
Proof.
  intros d.
  refine (every_object_carries_polished_summary demo_str
            (demo_env true 0 (inr demo_talk) demo_answer) demo_request demo_world d _).
  vm_compute. reflexivity.
Defined.

(** X11. The only file the handler itself ever removes is the audio file
    at the path it made up for this request.  Every other file is, after
    the run, exactly where the download tool left it; and the handler adds
    no file of its own. *)
Theorem handler_removes_only_its_audio_file {E} (py_str : Exn -> str) (env : Env E)
    m req w0 :
  whisper_model env = Some m ->
  let d := (tempfile_gettempdir env (ext w0)).1 in
  let e1 := (tempfile_gettempdir env (ext w0)).2 in
  let u := (uuid_uuid4 env e1).1 in
  let e2 := (uuid_uuid4 env e1).2 in
  let temp_path := os_path_join d (u ++ lit ".mp3") in
  let cmd := yt_dlp_command temp_path (url req) in
  let files' := (spawn env cmd (fs w0) e2).1.2 in
  let o := process_youtube py_str env req w0 in
  (forall p, In (CallOsRemove p) (calls (trace_of o)) -> p = temp_path)
  /\ (length (filter is_remove_call (calls (trace_of o))) <= 1)%nat
  /\ (forall p, p <> temp_path -> (p ∈ fs (world_of o) <-> p ∈ files'))
  /\ (forall p, p ∈ fs (world_of o) -> p ∈ files').
Proof.
  intros Hm d e1 u e2 temp_path cmd files' o.
  destruct (process_youtube_loaded_cases py_str env m req w0 Hm)
    as [(e & _ & Hfs & Hc) | [(e & _ & Hfs & Hc)
        | (text & w3 & _ & _ & Hfs & _ & Hc)]];
    fold d e1 u e2 temp_path cmd files' o in Hfs, Hc; rewrite Hfs, Hc.
  - split; [intros p H; simpl in H; intuition discriminate|].
    split; [simpl; lia|]. split; [reflexivity|auto].
  - split; [intros p H; simpl in H; intuition discriminate|].
    split; [simpl; lia|]. split; [reflexivity|auto].
  - assert (Hfr : (forall p, p <> temp_path ->
                     (p ∈ files' ∖ {[temp_path]} <-> p ∈ files'))
                  /\ (forall p, p ∈ files' ∖ {[temp_path]} -> p ∈ files')).
    { split.
      - intros p Hp. rewrite elem_of_difference, elem_of_singleton. tauto.
      - intros p Hp. apply elem_of_difference in Hp. tauto. }
    destruct Hfr as [Hfr1 Hfr2].
    destruct (gate_and_refine_cases env (strip text) w3)
      as [(_ & _ & ->) | (_ & [(e & _ & ->) | [(c & e & _ & ->)
          | [(c & s & e & _ & ->) | (c & s & p & _ & ->)]]])];
      (split; [intros q H; simpl in H;
               repeat (destruct H as [H|H]; [try discriminate H|]);
               try contradiction; injection H as <-; reflexivity|]);
      (split; [simpl; lia|]); (split; [exact Hfr1|exact Hfr2]).
Qed.

Lemma handler_removes_only_its_audio_file_witness :
  let o := process_youtube demo_str stateless_env demo_request stateless_world in
  let files' : gset str := {[ lit "/tmp/leftover.mp3" ]} ∪ {[demo_path]} in
  (forall p, In (CallOsRemove p) (calls (trace_of o)) -> p = demo_path)
  /\ (length (filter is_remove_call (calls (trace_of o))) <= 1)%nat
  /\ (forall p, p <> demo_path -> (p ∈ fs (world_of o) <-> p ∈ files'))
  /\ (forall p, p ∈ fs (world_of o) -> p ∈ files').
Proof.
  refine (handler_removes_only_its_audio_file demo_str stateless_env _
            demo_request stateless_world _).
  reflexivity.
Defined.

(** ** The download step *)

Lemma endswith_app (p a : str) : endswith p (a ++ p) = true.
Proof. unfold endswith. rewrite rev_app_distr. apply startswith_app. Qed.

Lemma os_path_join_suffix (a b suffix : str) :
  exists stem, os_path_join a (b ++ suffix) = stem ++ suffix.
Proof.
  unfold os_path_join.
  destruct (startswith (lit "/") (b ++ suffix)); [exists b; reflexivity|].
  destruct (bool_decide (a = []) || endswith (lit "/") a).
  - exists (a ++ b). rewrite app_assoc. reflexivity.
  - exists (a ++ lit "/" ++ b). rewrite <- !app_assoc. reflexivity.
Qed.

(** X5. When [download_youtube_audio] returns a path, the download tool
    was run once, exited with 0, and was told to write to that very path
    with the URL as its last argument; and the path ends in [.mp3]. *)
Theorem download_returns_the_path_it_requested {E} (env : Env E) url w path w1 t1 :
  download_youtube_audio env url w = (inr path, w1, t1) ->
  endswith (lit ".mp3") path = true
  /\ List.map fst t1
     = [CallGettempdir; CallUuid4;
        CallSubprocessRun
          [lit "yt-dlp"; lit "--extract-audio"; lit "--audio-format"; lit "mp3";
           lit "--output"; path; url]]
  /\ In (ReplyExit (inr 0)) (List.map snd t1).
Proof.
  rewrite download_run.
  destruct (spawn env _ (fs w) _) as [[[e|rc] files'] e'] eqn:Hsp; cbn [fst snd].
  { intros [= ]. }
  destruct (rc =? 0) eqn:Hrc; cbn [negb]; [|intros [= ]].
  apply Z.eqb_eq in Hrc. subst rc.
  intros [= <- <- <-]. split; [|split].
  - destruct (os_path_join_suffix (tempfile_gettempdir env (ext w)).1
                (uuid_uuid4 env (tempfile_gettempdir env (ext w)).2).1 (lit ".mp3"))
      as [stem ->].
    apply endswith_app.
  - reflexivity.
  - cbn [List.map snd]. right. right. left. reflexivity.
Qed.

Lemma download_returns_the_path_it_requested_witness :
  endswith (lit ".mp3") demo_path = true
  /\ List.map fst
       [ (CallGettempdir, ReplyStr (lit "/tmp"));
         (CallUuid4, ReplyStr (lit "1b4e28ba-2fa1-41d2-883f-0016d3cca427"));
         (CallSubprocessRun (yt_dlp_command demo_path (lit "https://youtu.be/x")),
          ReplyExit (inr 0)) ]
     = [CallGettempdir; CallUuid4;
        CallSubprocessRun
          [lit "yt-dlp"; lit "--extract-audio"; lit "--audio-format"; lit "mp3";
           lit "--output"; demo_path; lit "https://youtu.be/x"]]
  /\ In (ReplyExit (inr 0))
        (List.map snd
           [ (CallGettempdir, ReplyStr (lit "/tmp"));
             (CallUuid4, ReplyStr (lit "1b4e28ba-2fa1-41d2-883f-0016d3cca427"));
             (CallSubprocessRun (yt_dlp_command demo_path (lit "https://youtu.be/x")),
              ReplyExit (inr 0)) ]).
Proof.
  refine (download_returns_the_path_it_requested
            (demo_env true 0 (inr demo_talk) demo_answer)
            (lit "https://youtu.be/x") demo_world demo_path
            {| fs := {[demo_path]}; ext := 0%nat |} _ _).
  vm_compute. reflexivity.
Defined.

(** X4. Any failure of the download, be it that the tool cannot be started
    or that it exits with a non-zero code, ends the request with status 500
    and the text of that exception; nothing is transcribed and nothing is
    cleaned up, so whatever the tool wrote before failing stays on disk. *)
Theorem failed_download_cleans_nothing {E} (py_str : Exn -> str) (env : Env E)
    m req w0 r files' e' :
  let d := (tempfile_gettempdir env (ext w0)).1 in
  let e1 := (tempfile_gettempdir env (ext w0)).2 in
  let u := (uuid_uuid4 env e1).1 in
  let e2 := (uuid_uuid4 env e1).2 in
  let cmd := yt_dlp_command (os_path_join d (u ++ lit ".mp3")) (url req) in
  whisper_model env = Some m ->
  spawn env cmd (fs w0) e2 = (r, files', e') ->
  r <> inr 0 ->
  let o := process_youtube py_str env req w0 in
  let raised := match r with inl e => e | inr rc => CalledProcessError rc cmd end in
  result_of o = inl (HTTPException 500 (lit "YouTube pipeline failed: " ++ py_str raised))
  /\ world_of o = Build_World files' e'
  /\ trace_of o
     = [ (CallGettempdir, ReplyStr d); (CallUuid4, ReplyStr u);
         (CallSubprocessRun cmd, ReplyExit r) ].
Proof.
  intros d e1 u e2 cmd Hm Hsp Hr o raised.
  pose proof (download_run env (url req) w0) as Hd. cbv zeta in Hd.
  fold d e1 u e2 cmd in Hd. rewrite Hsp in Hd. cbn [fst snd] in Hd.
  assert (Hd' : download_youtube_audio env (url req) w0
                = (inl raised, Build_World files' e',
                   [ (CallGettempdir, ReplyStr d); (CallUuid4, ReplyStr u);
                     (CallSubprocessRun cmd, ReplyExit r) ])).
  { rewrite Hd. subst raised. destruct r as [e|rc]; [reflexivity|].
    destruct (rc =? 0) eqn:Hrc; [|reflexivity].
    apply Z.eqb_eq in Hrc. subst rc. contradiction Hr. reflexivity. }
  subst o. rewrite (process_youtube_download_failed py_str env m req _ _ _ _ Hm Hd').
  repeat split.
Qed.

Lemma failed_download_cleans_nothing_witness :
  let cmd := yt_dlp_command demo_path (lit "https://youtu.be/x") in
  let base := demo_env true 0 (inr demo_talk) demo_answer in
  (let o := process_youtube demo_str (with_spawn base partial_tool)
              demo_request demo_world in
   result_of o
   = inl (HTTPException 500
            (lit "YouTube pipeline failed: " ++ demo_str (CalledProcessError 1 cmd)))
   /\ world_of o = {| fs := ∅ ∪ {[demo_path ++ lit ".part"]}; ext := 0%nat |}
   /\ trace_of o
      = [ (CallGettempdir, ReplyStr (lit "/tmp"));
          (CallUuid4, ReplyStr (lit "1b4e28ba-2fa1-41d2-883f-0016d3cca427"));
          (CallSubprocessRun cmd, ReplyExit (inr 1)) ])
  /\ (let o := process_youtube demo_str (with_spawn base missing_tool)
                 demo_request demo_world in
      result_of o
      = inl (HTTPException 500
               (lit "YouTube pipeline failed: "
                ++ demo_str (FileNotFoundError (lit "yt-dlp"))))
      /\ world_of o = {| fs := ∅; ext := 0%nat |}
      /\ trace_of o
         = [ (CallGettempdir, ReplyStr (lit "/tmp"));
             (CallUuid4, ReplyStr (lit "1b4e28ba-2fa1-41d2-883f-0016d3cca427"));
             (CallSubprocessRun cmd,
              ReplyExit (inl (FileNotFoundError (lit "yt-dlp")))) ]).
Proof.
  intros cmd base. split.
  - refine (failed_download_cleans_nothing demo_str (with_spawn base partial_tool)
              _ demo_request demo_world (inr 1) _ 0%nat _ _ _).
    + reflexivity.
    + vm_compute. reflexivity.
    + discriminate.
  - refine (failed_download_cleans_nothing demo_str (with_spawn base missing_tool)
              _ demo_request demo_world (inl (FileNotFoundError (lit "yt-dlp")))
              ∅ 0%nat _ _ _).
    + reflexivity.
    + reflexivity.
    + discriminate.
Defined.

(** ** Failures of the refinement *)

Lemma process_youtube_refinement_failed {E} (py_str : Exn -> str) (env : Env E)
    m req w0 path w1 t1 text w2 t2 e w' t' :
  whisper_model env = Some m ->
  download_youtube_audio env (url req) w0 = (inr path, w1, t1) ->
  transcribe m path w1 = (inr text, w2, t2) ->
  gate_and_refine env (strip text) (Build_World (fs w2 ∖ {[path]}) (ext w2))
  = (inl e, w', t') ->
  process_youtube py_str env req w0
  = (inl (HTTPException 500 (lit "YouTube pipeline failed: " ++ py_str e)), w',
     t1 ++ t2 ++ removal path :: t').
Proof.
  intros Hm Hd Ht Hg.
  rewrite (process_youtube_transcribed py_str env m req _ _ _ _ _ _ _ Hm Hd Ht).
  rewrite try_except_pipeline_failed, Hg. reflexivity.
Qed.

Lemma chat_calls_before_refinement {E} (env : Env E) (m : WhisperModel E)
    url w0 path w1 t1 text w2 t2 rest :
  download_youtube_audio env url w0 = (inr path, w1, t1) ->
  transcribe m path w1 = (inr text, w2, t2) ->
  filter is_chat_call (calls (t1 ++ t2 ++ removal path :: rest))
  = filter is_chat_call (calls rest).
Proof.
  intros Hd Ht.
  destruct (download_calls env _ _ _ _ _ Hd) as (Hdc & _).
  destruct (transcribe_inr _ _ _ _ _ _ Ht) as (_ & _ & ->).
  unfold calls in *. rewrite map_app, filter_app, Hdc. reflexivity.
Qed.

(** X7. When the correction fails, the request ends with status 500 and
    the text of that failure after this one chat completion: no summary is
    asked for, no polishing either, and the audio file is already gone. *)
Theorem correction_failure_stops_refinement {E} (py_str : Exn -> str) (env : Env E)
    m req w0 path w1 t1 text w2 t2 e w4 tc :
  whisper_model env = Some m ->
  download_youtube_audio env (url req) w0 = (inr path, w1, t1) ->
  transcribe m path w1 = (inr text, w2, t2) ->
  (5 <= length (split (strip text)))%nat ->
  correct_transcript env (PStr (strip text))
    (Build_World (fs w2 ∖ {[path]}) (ext w2)) = (inl e, w4, tc) ->
  let o := process_youtube py_str env req w0 in
  result_of o = inl (HTTPException 500 (lit "YouTube pipeline failed: " ++ py_str e))
  /\ filter is_chat_call (calls (trace_of o))
     = [CallChatCreate (refine_request Correction (PStr (strip text)))]
  /\ (path ∉ fs (world_of o)).
Proof.
  intros Hm Hd Ht Hw Hc o.
  apply poor_input_false in Hw.
  assert (Hg : gate_and_refine env (strip text) (Build_World (fs w2 ∖ {[path]}) (ext w2))
               = (inl e, w4, tc)).
  { unfold gate_and_refine. rewrite Hw. apply bind_inl. exact Hc. }
  subst o.
  rewrite (process_youtube_refinement_failed py_str env m req _ _ _ _ _ _ _ _ _ _
             Hm Hd Ht Hg).
  rewrite result_of_mk, world_of_mk, trace_of_mk.
  destruct (stage_trace env Correction _ _ _ _ _ Hc) as (Hfs & Hcc).
  split; [reflexivity|]. split.
  - rewrite (chat_calls_before_refinement env m _ _ _ _ _ _ _ _ _ Hd Ht), Hcc.
    reflexivity.
  - rewrite Hfs. cbn [fs]. apply not_elem_of_difference. right.
    apply elem_of_singleton. reflexivity.
Qed.

Lemma correction_failure_stops_refinement_witness :
  let o := process_youtube demo_str (demo_env true 0 (inr demo_talk) no_choice_answer)
             demo_request demo_world in
  result_of o
  = inl (HTTPException 500 (lit "YouTube pipeline failed: " ++ demo_str IndexError))
  /\ filter is_chat_call (calls (trace_of o))
     = [CallChatCreate (refine_request Correction (PStr (strip demo_talk)))]
  /\ (demo_path ∉ fs (world_of o)).
Proof.
  refine (correction_failure_stops_refinement demo_str
            (demo_env true 0 (inr demo_talk) no_choice_answer)
            _ demo_request demo_world demo_path
            {| fs := {[demo_path]}; ext := 0%nat |} _ demo_talk
            {| fs := {[demo_path]}; ext := 0%nat |} _
            IndexError {| fs := ∅; ext := 1%nat |} _ _ _ _ _ _).
  - reflexivity.
  - vm_compute. reflexivity.
  - vm_compute. reflexivity.
  - vm_compute. lia.
  - vm_compute. reflexivity.
Defined.

(** X8. When the correction succeeds and the summarization fails, the
    request ends with status 500 after these two chat completions: the
    polishing is never asked for, and the corrected text is dropped. *)
Theorem summarization_failure_skips_polishing {E} (py_str : Exn -> str) (env : Env E)
    m req w0 path w1 t1 text w2 t2 c w4 tc e w5 ts :
  whisper_model env = Some m ->
  download_youtube_audio env (url req) w0 = (inr path, w1, t1) ->
  transcribe m path w1 = (inr text, w2, t2) ->
  (5 <= length (split (strip text)))%nat ->
  correct_transcript env (PStr (strip text))
    (Build_World (fs w2 ∖ {[path]}) (ext w2)) = (inr c, w4, tc) ->
  summarize_text env c w4 = (inl e, w5, ts) ->
  let o := process_youtube py_str env req w0 in
  result_of o = inl (HTTPException 500 (lit "YouTube pipeline failed: " ++ py_str e))
  /\ filter is_chat_call (calls (trace_of o))
     = [CallChatCreate (refine_request Correction (PStr (strip text)));
        CallChatCreate (refine_request Summarization c)].
Proof.
  intros Hm Hd Ht Hw Hc Hs o.
  apply poor_input_false in Hw.
  assert (Hg : gate_and_refine env (strip text) (Build_World (fs w2 ∖ {[path]}) (ext w2))
               = (inl e, w5, tc ++ ts)).
  { unfold gate_and_refine. rewrite Hw.
    rewrite (bind_inr _ _ _ _ _ _ Hc), (bind_inl _ _ _ _ _ _ Hs). reflexivity. }
  subst o.
  rewrite (process_youtube_refinement_failed py_str env m req _ _ _ _ _ _ _ _ _ _
             Hm Hd Ht Hg).
  rewrite result_of_mk, trace_of_mk.
  destruct (stage_trace env Correction _ _ _ _ _ Hc) as (_ & Hcc).
  destruct (stage_trace env Summarization _ _ _ _ _ Hs) as (_ & Hsc).
  split; [reflexivity|].
  rewrite (chat_calls_before_refinement env m _ _ _ _ _ _ _ _ _ Hd Ht).
  unfold calls in *. rewrite map_app, Hcc, Hsc. reflexivity.
Qed.

Lemma summarization_failure_skips_polishing_witness :
  let boom := OtherException "RateLimitError" (lit "Rate limit exceeded") in
  let o := process_youtube demo_str
             (demo_env true 0 (inr demo_talk) (failing_answer 1))
             demo_request demo_world in
  result_of o
  = inl (HTTPException 500 (lit "YouTube pipeline failed: " ++ demo_str boom))
  /\ filter is_chat_call (calls (trace_of o))
     = [CallChatCreate (refine_request Correction (PStr (strip demo_talk)));
        CallChatCreate (refine_request Summarization (PStr (lit "corrected text")))].
Proof.
  intros boom.
  refine (summarization_failure_skips_polishing demo_str
            (demo_env true 0 (inr demo_talk) (failing_answer 1))
            _ demo_request demo_world demo_path
            {| fs := {[demo_path]}; ext := 0%nat |} _ demo_talk
            {| fs := {[demo_path]}; ext := 0%nat |} _
            (PStr (lit "corrected text")) {| fs := ∅; ext := 1%nat |} _
            boom {| fs := ∅; ext := 2%nat |} _ _ _ _ _ _ _).
  - reflexivity.
  - vm_compute. reflexivity.
  - vm_compute. reflexivity.
  - vm_compute. lia.
  - vm_compute. reflexivity.
  - vm_compute. reflexivity.
Defined.

(** X9. When only the polishing fails, all three chat completions have
    been paid for and the request still ends with status 500: the summary
    that was obtained is not sent, there is no partial result. *)
Theorem polishing_failure_discards_summary {E} (py_str : Exn -> str) (env : Env E)
    m req w0 path w1 t1 text w2 t2 c w4 tc s w5 ts e w6 tp :
  whisper_model env = Some m ->
  download_youtube_audio env (url req) w0 = (inr path, w1, t1) ->
  transcribe m path w1 = (inr text, w2, t2) ->
  (5 <= length (split (strip text)))%nat ->
  correct_transcript env (PStr (strip text))
    (Build_World (fs w2 ∖ {[path]}) (ext w2)) = (inr c, w4, tc) ->
  summarize_text env c w4 = (inr s, w5, ts) ->
  polish_bullets env s w5 = (inl e, w6, tp) ->
  let o := process_youtube py_str env req w0 in
  result_of o = inl (HTTPException 500 (lit "YouTube pipeline failed: " ++ py_str e))
  /\ http_status (result_of o) = 500
  /\ filter is_chat_call (calls (trace_of o))
     = [CallChatCreate (refine_request Correction (PStr (strip text)));
        CallChatCreate (refine_request Summarization c);
        CallChatCreate (refine_request Polishing s)].
Proof.
  intros Hm Hd Ht Hw Hc Hs Hp o.
  apply poor_input_false in Hw.
  assert (Hg : gate_and_refine env (strip text) (Build_World (fs w2 ∖ {[path]}) (ext w2))
               = (inl e, w6, tc ++ ts ++ tp)).
  { unfold gate_and_refine. rewrite Hw.
    rewrite (bind_inr _ _ _ _ _ _ Hc), (bind_inr _ _ _ _ _ _ Hs),
      (bind_inl _ _ _ _ _ _ Hp). reflexivity. }
  subst o.
  rewrite (process_youtube_refinement_failed py_str env m req _ _ _ _ _ _ _ _ _ _
             Hm Hd Ht Hg).
  rewrite result_of_mk, trace_of_mk.
  destruct (stage_trace env Correction _ _ _ _ _ Hc) as (_ & Hcc).
  destruct (stage_trace env Summarization _ _ _ _ _ Hs) as (_ & Hsc).
  destruct (stage_trace env Polishing _ _ _ _ _ Hp) as (_ & Hpc).
  split; [reflexivity|]. split; [reflexivity|].
  rewrite (chat_calls_before_refinement env m _ _ _ _ _ _ _ _ _ Hd Ht).
  unfold calls in *. rewrite !map_app, Hcc, Hsc, Hpc. reflexivity.
Qed.

Lemma polishing_failure_discards_summary_witness :
  let boom := OtherException "RateLimitError" (lit "Rate limit exceeded") in
  let o := process_youtube demo_str
             (demo_env true 0 (inr demo_talk) (failing_answer 2))
             demo_request demo_world in
  result_of o
  = inl (HTTPException 500 (lit "YouTube pipeline failed: " ++ demo_str boom))
  /\ http_status (result_of o) = 500
  /\ filter is_chat_call (calls (trace_of o))
     = [CallChatCreate (refine_request Correction (PStr (strip demo_talk)));
        CallChatCreate (refine_request Summarization (PStr (lit "corrected text")));
        CallChatCreate (refine_request Polishing (PStr (lit "**Notes**")))].
Proof.
  intros boom.
  refine (polishing_failure_discards_summary demo_str
            (demo_env true 0 (inr demo_talk) (failing_answer 2))
            _ demo_request demo_world demo_path
            {| fs := {[demo_path]}; ext := 0%nat |} _ demo_talk
            {| fs := {[demo_path]}; ext := 0%nat |} _
            (PStr (lit "corrected text")) {| fs := ∅; ext := 1%nat |} _
            (PStr (lit "**Notes**")) {| fs := ∅; ext := 2%nat |} _
            boom {| fs := ∅; ext := 3%nat |} _ _ _ _ _ _ _ _).
  - reflexivity.
  - vm_compute. reflexivity.
  - vm_compute. reflexivity.
  - vm_compute. lia.
  - vm_compute. reflexivity.
  - vm_compute. reflexivity.
  - vm_compute. reflexivity.
Defined.

Lemma bind_trace_prefix {E A B} (c : M E A) (k : A -> M E B) (w : World E) :
  exists more, trace_of (bind c k w) = trace_of (c w) ++ more.
Proof.
  destruct (c w) as [[[e|a] w1] t1] eqn:Hc.
  - exists []. rewrite (bind_inl _ _ _ _ _ _ Hc), !trace_of_mk, app_nil_r. reflexivity.
  - eexists. rewrite (bind_inr _ _ _ _ _ _ Hc), !trace_of_mk. reflexivity.
Qed.

(** X10. A completion whose first choice has no content does not stop the
    pipeline: the correction then returns [None], and the handler goes on
    to ask for a summary of a transcript that reads [None]. *)
Theorem missing_content_flows_into_next_prompt {E} (py_str : Exn -> str) (env : Env E)
    m req w0 path w1 t1 text w2 t2 response c rest :
  whisper_model env = Some m ->
  download_youtube_audio env (url req) w0 = (inr path, w1, t1) ->
  transcribe m path w1 = (inr text, w2, t2) ->
  (5 <= length (split (strip text)))%nat ->
  (chat_completions_create (client env)
     (refine_request Correction (PStr (strip text))) (ext w2)).1 = inr response ->
  choices response = c :: rest ->
  content (message c) = PNone ->
  In (CallChatCreate (refine_request Summarization (PStr (lit "None"))))
     (calls (trace_of (process_youtube py_str env req w0))).
Proof.
  intros Hm Hd Ht Hw Hr Hc Hn.
  apply poor_input_false in Hw.
  set (w3 := Build_World (fs w2 ∖ {[path]}) (ext w2)).
  rewrite (process_youtube_transcribed py_str env m req _ _ _ _ _ _ _ Hm Hd Ht).
  fold w3. rewrite trace_of_mk, try_except_pipeline_failed, trace_of_mk.
  pose proof (refine_result env Correction (PStr (strip text)) w3 response c rest Hr Hc)
    as Hres.
  rewrite Hn in Hres.
  unfold gate_and_refine. rewrite Hw.
  destruct (correct_transcript env (PStr (strip text)) w3) as [[r4 w4] tc] eqn:Hrun.
  change (correct_transcript env (PStr (strip text)) w3)
    with (refine env Correction (PStr (strip text)) w3) in Hrun.
  rewrite Hrun, result_of_mk in Hres. subst r4.
  change (refine env Correction (PStr (strip text)) w3)
    with (correct_transcript env (PStr (strip text)) w3) in Hrun.
  rewrite (bind_inr _ _ _ _ _ _ Hrun), trace_of_mk.
  pose proof (stage_calls env Summarization PNone w4) as Hsc. cbn [stage] in Hsc.
  assert (Hin : In (CallChatCreate (refine_request Summarization (PStr (lit "None"))))
                  (calls (trace_of (summarize_text env PNone w4)))).
  { rewrite Hsc. left. reflexivity. }
  destruct (bind_trace_prefix (summarize_text env PNone)
              (fun summary =>
                 bind (polish_bullets env summary)
                   (fun polished =>
                      ret (<[ "summary" := summary ]>
                             ({[ "polished_summary" := polished ]}
                                : gmap string PyVal)))) w4) as [more Htail].
  rewrite Htail.
  unfold calls in *.
  repeat (rewrite map_app || rewrite map_cons || rewrite in_app_iff). cbn [In].
  rewrite !in_app_iff.
  repeat first [exact Hin | left; exact Hin | right].
Qed.

Lemma missing_content_flows_into_next_prompt_witness :
  In (CallChatCreate (refine_request Summarization (PStr (lit "None"))))
     (calls (trace_of (process_youtube demo_str
                         (demo_env true 0 (inr demo_talk) none_first_answer)
                         demo_request demo_world))).
Proof.
  refine (missing_content_flows_into_next_prompt demo_str
            (demo_env true 0 (inr demo_talk) none_first_answer)
            _ demo_request demo_world demo_path
            {| fs := {[demo_path]}; ext := 0%nat |} _ demo_talk
            {| fs := {[demo_path]}; ext := 0%nat |} _
            _ {| message := {| role := lit "assistant"; content := PNone |} |} []
            _ _ _ _ _ _ _).
  - reflexivity.
  - vm_compute. reflexivity.
  - vm_compute. reflexivity.
  - vm_compute. lia.
  - reflexivity.
  - reflexivity.
  - reflexivity.
Defined.

(** X6. With a loaded model every request starts the download tool, once,
    on the URL exactly as it came in the request (empty or not, it is not
    looked at before) and with the fresh [.mp3] path as output; if a
    transcription follows, it reads that same path. *)
Theorem download_tool_runs_once_on_given_url {E} (py_str : Exn -> str) (env : Env E)
    m req w0 :
  whisper_model env = Some m ->
  let d := (tempfile_gettempdir env (ext w0)).1 in
  let e1 := (tempfile_gettempdir env (ext w0)).2 in
  let u := (uuid_uuid4 env e1).1 in
  let temp_path := os_path_join d (u ++ lit ".mp3") in
  exists rest,
    calls (trace_of (process_youtube py_str env req w0))
    = [CallGettempdir; CallUuid4;
       CallSubprocessRun
         [lit "yt-dlp"; lit "--extract-audio"; lit "--audio-format"; lit "mp3";
          lit "--output"; temp_path; url req]] ++ rest
    /\ (forall c, In c rest -> kind_of c <> KSubprocessRun)
    /\ (forall p, In (CallTranscribe p) rest -> p = temp_path).
Proof.
  intros Hm d e1 u temp_path.
  destruct (process_youtube_loaded_cases py_str env m req w0 Hm)
    as [(e & _ & _ & Hc) | [(e & _ & _ & Hc) | (text & w3 & _ & _ & _ & _ & Hc)]];
    fold d e1 u temp_path in Hc; rewrite Hc.
  - exists []. split; [reflexivity|]. split; intros ? [].
  - eexists. split; [reflexivity|]. split.
    + intros c [<-|[]]. discriminate.
    + intros p [[= <-]|[]]. reflexivity.
  - destruct (gate_and_refine_cases env (strip text) w3)
      as [(_ & _ & ->) | (_ & [(e & _ & ->) | [(c & e & _ & ->)
          | [(c & s & e & _ & ->) | (c & s & p & _ & ->)]]])];
      (eexists; split; [reflexivity|]; split;
       [ intros x H; cbn [app In] in H;
         repeat (destruct H as [<-|H]; [discriminate|]); contradiction
       | intros q H; cbn [app In] in H;
         repeat (destruct H as [H|H]; [try discriminate H|]); try contradiction;
         injection H as <-; reflexivity ]).
Qed.

Lemma download_tool_runs_once_on_given_url_witness :
  exists rest,
    calls (trace_of (process_youtube demo_str
                       (demo_env true 0 (inr demo_talk) demo_answer)
                       {| url := [] |} demo_world))
    = [CallGettempdir; CallUuid4;
       CallSubprocessRun
         [lit "yt-dlp"; lit "--extract-audio"; lit "--audio-format"; lit "mp3";
          lit "--output"; demo_path; []]] ++ rest
    /\ (forall c, In c rest -> kind_of c <> KSubprocessRun)
    /\ (forall p, In (CallTranscribe p) rest -> p = demo_path).
Proof.
  refine (download_tool_runs_once_on_given_url demo_str
            (demo_env true 0 (inr demo_talk) demo_answer) _ {| url := [] |}
            demo_world _).
  reflexivity.
Defined.
